(** * FVS: the state / commit / reference-breaking core (fvs/state.py)

    A shallow embedding of [FVSState] and of the narrow interfaces it
    consumes, followed by the properties of commit, load, break_references,
    has_file and has_relative_path. *)

From Stdlib Require Import ZArith Ascii String.
From stdpp Require Import base decidable option list strings gmap pretty.

Open Scope string_scope.
Open Scope Z_scope.

(** ** Python values *)

(** An entry of an unstaged sequence, and equally the dict literal that commit
    stores under a content hash: the three keys [file_name], [md5] and
    [relative_path]. *)
Record file_entry := FileEntry {
  file_name : string;
  md5 : string;
  relative_path : string
}.

#[global] Instance file_entry_eq_dec : EqDecision file_entry.
Proof. solve_decision. Defined.

(** The values that the keys of the unstaged dict (and the commit message) can
    hold. *)
Inductive pyval :=
| PyNone
| PyBool (b : bool)
| PyInt (z : Z)
| PyStr (s : string)
| PyList (l : list file_entry).

#[global] Instance pyval_eq_dec : EqDecision pyval.
Proof. solve_decision. Defined.

(** [bool] is a subclass of [int]: [False == 0] and [True == 1]. *)
Definition int_of_bool (b : bool) : Z := if b then 1 else 0.

(** Python's [a == b]. *)
Definition py_eq (a b : pyval) : bool :=
  match a, b with
  | PyNone, PyNone => true
  | PyBool x, PyBool y => bool_decide (x = y)
  | PyBool x, PyInt z => bool_decide (int_of_bool x = z)
  | PyInt z, PyBool x => bool_decide (z = int_of_bool x)
  | PyInt x, PyInt y => bool_decide (x = y)
  | PyStr x, PyStr y => bool_decide (x = y)
  | PyList x, PyList y => bool_decide (x = y)
  | _, _ => false
  end.

(** Python's [x in l] for a list [l]: some element compares equal to [x]. *)
Definition py_in (x : pyval) (l : list pyval) : bool :=
  existsb (fun e => py_eq e x) l.

(** Python's truth value, [bool(v)]. *)
Definition py_truthy (v : pyval) : bool :=
  match v with
  | PyNone => false
  | PyBool b => b
  | PyInt z => negb (z =? 0)
  | PyStr s => negb (bool_decide (s = ""))
  | PyList l => negb (bool_decide (l = []))
  end.

(** [d.get(k)]: the value, or [None] when the key is missing. *)
Definition dict_get (d : gmap string pyval) (k : string) : pyval :=
  default PyNone (d !! k).

(** ** Exceptions and results *)

Inductive exn :=
| FVSCallerWrongClass (expected : string)
| FVSCommittingToExistingState
| FVSEmptyCommitMessage
| FVSWrongUnstagedDict
| FVSStateNotFound (state_id : Z)
| FVSUnsupportedKey (supported : list string)
| KeyError (key : string)
| TypeError
| AttributeError
| FileNotFoundError
| IsADirectoryError
| YAMLError.

Inductive result (A : Type) :=
| Ret (a : A)
| Raise (e : exn).
Arguments Ret {A} a.
Arguments Raise {A} e.

(** ** Insertion-ordered dicts keyed by content hash *)

Definition dict := list (string * file_entry).

(** [d[k] = v]: an existing key keeps its position and takes the new value, a
    new key goes to the end. *)
Fixpoint dict_set (d : dict) (k : string) (v : file_entry) : dict :=
  match d with
  | [] => [(k, v)]
  | (k', v') :: d' =>
      if String.eqb k' k then (k', v) :: d' else (k', v') :: dict_set d' k v
  end.

(** [k in d]. *)
Definition dict_mem (k : string) (d : dict) : bool :=
  existsb (fun kv => String.eqb (fst kv) k) d.

Definition keys (d : dict) : list string := map fst d.

(** [d.values()], in insertion order. *)
Definition values (d : dict) : list file_entry := map snd d.

(** ** The [__files] dict of a state *)

Record files := Files {
  count : pyval;
  added : dict;
  modified : dict;
  removed : dict;
  intact : dict
}.

(** [{"count": 0, "added": {}, "modified": {}, "removed": {}, "intact": {}}] *)
Definition empty_files : files := Files (PyInt 0) [] [] [] [].

Record FVSState := MkState {
  st_files : files;
  st_state_id : option Z;
  st_state_path : option string
}.

(** ** Queries *)

(** [has_file]. *)
Definition has_file (self : FVSState) (h : string) : bool :=
  if dict_mem h (added (st_files self))
     || dict_mem h (modified (st_files self))
     || dict_mem h (intact (st_files self))
  then true else false.

Definition supported_keys : list string := ["any"; "added"; "modified"; "intact"].

(** [self.__files[key].values()]: the four partitions are dicts, [count] is not,
    and no other key exists. *)
Definition files_values (f : files) (key : string) : result (list file_entry) :=
  if String.eqb key "added" then Ret (values (added f))
  else if String.eqb key "modified" then Ret (values (modified f))
  else if String.eqb key "removed" then Ret (values (removed f))
  else if String.eqb key "intact" then Ret (values (intact f))
  else if String.eqb key "count" then Raise AttributeError
  else Raise (KeyError key).

(** One [for file in ...: if file["relative_path"] == relative_path: return file]
    loop: the first entry with that path, if any. *)
Definition scan (relative_path0 : string) (l : list file_entry) : option file_entry :=
  find (fun f => String.eqb (relative_path f) relative_path0) l.

(** [has_relative_path].  [Ret None] is Python's [return None]. *)
Definition has_relative_path (self : FVSState) (relative_path0 : string)
    (key : string) : result (option file_entry) :=
  let f := st_files self in
  if negb (bool_decide (key ∈ supported_keys)) then Raise (FVSUnsupportedKey supported_keys)
  else
    let in_any :=
      if String.eqb key "any" then
        match scan relative_path0 (values (intact f)) with
        | Some file => Some file
        | None =>
            match scan relative_path0 (values (modified f)) with
            | Some file => Some file
            | None => scan relative_path0 (values (added f))
            end
        end
      else None in
    match in_any with
    | Some file => Ret (Some file)
    | None =>
        match files_values f key with
        | Raise e => Raise e
        | Ret l =>
            match scan relative_path0 l with
            | Some _file => Ret (Some _file)
            | None => Ret None
            end
        end
    end.

(** ** Collaborators *)

(** Modelled from the spec: the File Descriptor built by [FVSFile(repo,
    file_name, md5, relative_path)] (fvs/file.py is not part of the sources):
    an immutable value of display name, content hash and relative path, with
    no behaviour of its own. *)
Record FVSFile := MkFVSFile {
  ff_file_name : string;
  ff_md5 : string;
  ff_relative_path : string
}.

#[global] Instance FVSFile_eq_dec : EqDecision FVSFile.
Proof. solve_decision. Defined.

(** An operation queued on the content-store transaction. *)
Inductive op :=
| Add (f : FVSFile)
| Delete (f : FVSFile).

(** Modelled from the spec: the Content Store transaction [FVSData(repo, state)]
    (fvs/data.py is not part of the sources).  [add_file] and [delete_file]
    queue a descriptor; [complete_transaction] is the commit point that applies
    everything queued as one unit. *)
Definition FVSData := list op.

Definition FVSData_new : FVSData := [].
Definition add_file (fvs_data : FVSData) (f : FVSFile) : FVSData := (fvs_data ++ [Add f])%list.
Definition delete_file (fvs_data : FVSData) (f : FVSFile) : FVSData := (fvs_data ++ [Delete f])%list.

(** Modelled from the spec: the attributes of the repository collaborator
    [FVSRepo] that the state reads (fvs/repo.py is not part of the sources). *)
Record FVSRepo := MkRepo {
  states_path : string;
  next_state_id : Z
}.

(** [os.path.join(a, b)] on POSIX, for two components. *)
Definition ends_with_slash (a : string) : bool :=
  match rev (String.list_ascii_of_string a) with
  | c :: _ => Ascii.eqb c "/"%char
  | [] => false
  end.

Definition os_path_join (a b : string) : string :=
  if String.prefix "/" b then b
  else if bool_decide (a = "") || ends_with_slash a then a ++ b
  else a ++ "/" ++ b.

(** [str(state_id)]. *)
Definition str_of_int (z : Z) : string := pretty z.

(** The items that iterating a diff value yields: the entries of a list, or the
    one-character strings of a string. *)
Inductive item :=
| ItemEntry (e : file_entry)
| ItemChar (c : string).

(** [iter(v)] as run by a [for] statement. *)
Definition py_iter (v : pyval) : result (list item) :=
  match v with
  | PyList l => Ret (map ItemEntry l)
  | PyStr s => Ret (map (fun c => ItemChar (String c "")) (String.list_ascii_of_string s))
  | PyNone | PyBool _ | PyInt _ => Raise TypeError
  end.

(** [_file[k]]: a key of the entry; a string cannot be indexed by a string. *)
Definition item_getitem (_file : item) (k : string) : result string :=
  match _file with
  | ItemChar _ => Raise TypeError
  | ItemEntry e =>
      if String.eqb k "file_name" then Ret (file_name e)
      else if String.eqb k "md5" then Ret (md5 e)
      else if String.eqb k "relative_path" then Ret (relative_path e)
      else Raise (KeyError k)
  end.

(** [d[k]] on the unstaged dict. *)
Definition dict_getitem (d : gmap string pyval) (k : string) : result pyval :=
  match d !! k with
  | Some v => Ret v
  | None => Raise (KeyError k)
  end.

Definition result_bind {A B} (r : result A) (k : A -> result B) : result B :=
  match r with
  | Ret a => k a
  | Raise e => Raise e
  end.

(** [FVSFile(self.__repo, _file["file_name"], _file["md5"], _file["relative_path"])] *)
Definition descriptor_of (_file : item) : result FVSFile :=
  result_bind (item_getitem _file "file_name") (fun n =>
  result_bind (item_getitem _file "md5") (fun h =>
  result_bind (item_getitem _file "relative_path") (fun p =>
  Ret (MkFVSFile n h p)))).

(** [{"file_name": _file["file_name"], "md5": _file["md5"],
      "relative_path": _file["relative_path"]}] *)
Definition stored_entry_of (_file : item) : result file_entry :=
  result_bind (item_getitem _file "file_name") (fun n =>
  result_bind (item_getitem _file "md5") (fun h =>
  result_bind (item_getitem _file "relative_path") (fun p =>
  Ret (FileEntry n h p)))).

(** The descriptor that break_references builds from a stored entry. *)
Definition file_of_entry (e : file_entry) : FVSFile :=
  MkFVSFile (file_name e) (md5 e) (relative_path e).

(** Field updates of [__files]. *)
Definition set_count (c : pyval) (f : files) : files :=
  Files c (added f) (modified f) (removed f) (intact f).
Definition set_added (d : dict) (f : files) : files :=
  Files (count f) d (modified f) (removed f) (intact f).
Definition set_modified (d : dict) (f : files) : files :=
  Files (count f) (added f) d (removed f) (intact f).
Definition set_removed (d : dict) (f : files) : files :=
  Files (count f) (added f) (modified f) d (intact f).
Definition set_intact (d : dict) (f : files) : files :=
  Files (count f) (added f) (modified f) (removed f) d.

(** ** Reference values for the statements *)

(** A partition after [for _file in l: d[_file["md5"]] = {...}]. *)
Definition store_all (d : dict) (l : list file_entry) : dict :=
  fold_left (fun d e => dict_set d (md5 e) e) l d.

(** [__files] after the assignments of a commit of the sequences [la], [lm],
    [lr], [li] with count [c]. *)
Definition committed_files (f : files) (c : pyval)
    (la lm lr li : list file_entry) : files :=
  Files c (store_all (added f) la) (store_all (modified f) lm)
        (store_all (removed f) lr) (store_all (intact f) li).

(** The values that compare equal to [False]. *)
Definition equals_False (v : pyval) : Prop := v = PyBool false \/ v = PyInt 0.

(** No content hash is a key of two partitions. *)
Definition partitions_disjoint (f : files) : Prop :=
  keys (added f) ## keys (modified f) /\ keys (added f) ## keys (removed f) /\
  keys (added f) ## keys (intact f) /\ keys (modified f) ## keys (removed f) /\
  keys (modified f) ## keys (intact f) /\ keys (removed f) ## keys (intact f).

(** No content hash occurs in two of the sequences. *)
Definition sequences_disjoint (la lm lr li : list file_entry) : Prop :=
  map md5 la ## map md5 lm /\ map md5 la ## map md5 lr /\
  map md5 la ## map md5 li /\ map md5 lm ## map md5 lr /\
  map md5 lm ## map md5 li /\ map md5 lr ## map md5 li.

(** The exceptions of Python itself that a badly shaped diff runs into. *)
Definition shape_error (e : exn) : Prop := e = TypeError \/ exists k, e = KeyError k.

(** The dict of an unstaged diff. *)
Definition unstaged (c a m r i : pyval) : gmap string pyval :=
  <["count" := c]> (<["added" := a]> (<["modified" := m]>
    (<["removed" := r]> (<["intact" := i]> ∅)))).

Definition entry_a : file_entry := FileEntry "A" "hashA" "/a".
Definition entry_b : file_entry := FileEntry "B" "hashB" "/b".
Definition entry_c : file_entry := FileEntry "C" "hashC" "/c".
Definition entry_d : file_entry := FileEntry "D" "hashD" "/d".

(** A copy of [B] under another name: same content, same hash. *)
Definition entry_b_copy : file_entry := FileEntry "B2" "hashB" "/b2".
(** An entry at the path of [A] with other content. *)
Definition entry_a_old : file_entry := FileEntry "A" "hashA0" "/a".

(** One added file next to one intact file, nothing modified or removed. *)
Definition diff_one_added : gmap string pyval :=
  unstaged (PyInt 2) (PyList [entry_a]) (PyList []) (PyList []) (PyList [entry_b]).

(** Every sequence populated. *)
Definition diff_full : gmap string pyval :=
  unstaged (PyInt 4) (PyList [entry_a]) (PyList [entry_c]) (PyList [entry_d])
           (PyList [entry_b]).

(** A new file whose content equals that of an intact one. *)
Definition diff_shared_hash : gmap string pyval :=
  unstaged (PyInt 4) (PyList [entry_b_copy]) (PyList [entry_c]) (PyList [entry_d])
           (PyList [entry_b]).

(** Every sequence populated, and a count of zero. *)
Definition diff_zero_count : gmap string pyval :=
  unstaged (PyInt 0) (PyList [entry_a]) (PyList [entry_c]) (PyList [entry_d])
           (PyList [entry_b]).

(** No "intact" key. *)
Definition diff_no_intact : gmap string pyval :=
  delete "intact" diff_full.

(** The content of [A] once more, under another name. *)
Definition entry_a_renamed : file_entry := FileEntry "A2" "hashA" "/a2".

(** Two added entries with the same hash. *)
Definition diff_repeated_hash : gmap string pyval :=
  unstaged (PyInt 5) (PyList [entry_a; entry_a_renamed]) (PyList [entry_c])
           (PyList [entry_d]) (PyList [entry_b]).

(** The added key is there and holds [None]. *)
Definition diff_none_added : gmap string pyval :=
  unstaged (PyInt 3) PyNone (PyList [entry_c]) (PyList [entry_d]) (PyList [entry_b]).

Definition repo_one : FVSRepo := MkRepo "/repo/.fvs/states" 1.

(** A state that holds the path [/a] both as an intact and as an added entry. *)
Definition state_same_path : FVSState :=
  MkState (Files (PyInt 2) [("hashA", entry_a)] [] [] [("hashA0", entry_a_old)])
          (Some 1) None.

(** The identity codec, for running the model on examples. *)
Definition plain_dump (f : files) : files := f.
Definition plain_load (d : files) : option files := Some d.

(** ** The engine over a storage codec *)

Section Engine.

(** The text of a [files.yml], with [yaml.dump(_, sort_keys=False)] and
    [yaml.safe_load]. *)
Context {doc : Type}.
Variable yaml_dump : files -> doc.
Variable yaml_safe_load : doc -> option files.

Variable repo : FVSRepo.

(** A node of the file system under the repository. *)
Inductive node :=
| Dir
| File (content : doc).

(** What reaches the outside, in order of occurrence. *)
Inductive event :=
| Transaction (ops : list op)
| MakeDirs (path : string)
| WriteFile (path : string) (content : doc).

Record world := World {
  fs : gmap string node;
  trace : list event
}.

(** The object the method runs on, and the outside. *)
Record machine := Machine {
  self : FVSState;
  env : world
}.

(** State and exception monad of a method body.  An exception keeps whatever
    was assigned before it was raised. *)
Definition M (A : Type) : Type := machine -> result A * machine.

#[local] Instance M_ret : MRet M := fun A a m => (Ret a, m).
#[local] Instance M_bind : MBind M := fun A B k c m =>
  match c m with
  | (Ret a, m') => k a m'
  | (Raise e, m') => (Raise e, m')
  end.

Definition raise {A} (e : exn) : M A := fun m => (Raise e, m).
Definition lift {A} (r : result A) : M A := fun m => (r, m).
Definition get_env : M world := fun m => (Ret (env m), m).
Definition get_self : M FVSState := fun m => (Ret (self m), m).
Definition modify_self (g : FVSState -> FVSState) : M unit :=
  fun m => (Ret tt, Machine (g (self m)) (env m)).
Definition modify_env (g : world -> world) : M unit :=
  fun m => (Ret tt, Machine (self m) (g (env m))).
Definition modify_files (g : files -> files) : M unit :=
  modify_self (fun s => MkState (g (st_files s)) (st_state_id s) (st_state_path s)).

(** [for x in l: body], threading the local [acc]. *)
Fixpoint for_each {A B} (l : list A) (body : B -> A -> M B) (acc : B) : M B :=
  match l with
  | [] => mret acc
  | x :: l' => acc' ← body acc x; for_each l' body acc'
  end.

(** [os.path.exists(path)] *)
Definition path_exists (w : world) (path : string) : bool :=
  bool_decide (is_Some (fs w !! path)).

(** The location of a state's metadata directory. *)
Definition state_dir (state_id : Z) : string :=
  os_path_join (states_path repo) (str_of_int state_id).

(** Modelled from the spec: [FVSRepo.is_valid_state(id)] (fvs/repo.py is not
    part of the sources) returns a bool or raises [FVSStateNotFound]; a state
    is there when its slot exists on storage. *)
Definition is_valid_state (state_id : Z) (w : world) : result bool :=
  if path_exists w (state_dir state_id) then Ret true
  else Raise (FVSStateNotFound state_id).

(** Modelled from the spec: [FVSRepo.new_state_path_by_id(id)] (fvs/repo.py is
    not part of the sources) resolves and creates the storage location of the
    given id. *)
Definition new_state_path_by_id (state_id : Z) : M string :=
  let path := state_dir state_id in
  modify_env (fun w => World (<[path := Dir]> (fs w)) (trace w ++ [MakeDirs path])%list);;
  mret path.

(** [fvs_data.complete_transaction()] *)
Definition complete_transaction (fvs_data : FVSData) : M unit :=
  modify_env (fun w => World (fs w) (trace w ++ [Transaction fvs_data])%list).

(** [with open(path, "w") as f: yaml.dump(data, f, sort_keys=False)] *)
Definition write_yaml (path : string) (data : files) : M unit :=
  modify_env (fun w =>
    World (<[path := File (yaml_dump data)]> (fs w))
          (trace w ++ [WriteFile path (yaml_dump data)])%list).

(** [with open(path, "r") as f: yaml.safe_load(f)] *)
Definition read_yaml (path : string) : M files :=
  w ← get_env;
  match fs w !! path with
  | Some (File content) =>
      match yaml_safe_load content with
      | Some data => mret data
      | None => raise YAMLError
      end
  | Some Dir => raise IsADirectoryError
  | None => raise FileNotFoundError
  end.

(** [__load_state] *)
Definition load_state (state_id : Z) : M unit :=
  modify_self (fun s =>
    MkState (st_files s) (Some state_id)
            (Some (os_path_join (states_path repo) (str_of_int state_id))));;
  w ← get_env;
  if negb (path_exists w (os_path_join (states_path repo) (str_of_int state_id)))
  then raise (FVSStateNotFound state_id)
  else
    data ← read_yaml (os_path_join
                        (os_path_join (states_path repo) (str_of_int state_id))
                        "files.yml");
    modify_self (fun s => MkState data (st_state_id s) (st_state_path s)).

(** [__init__]: the object that the constructor returns, unless it raises. *)
Definition FVSState_init (state_id : option Z) (w : world) : result FVSState :=
  let fresh := MkState empty_files None None in
  match state_id with
  | None => Ret fresh
  | Some i =>
      match load_state i (Machine fresh w) with
      | (Ret _, m) => Ret (self m)
      | (Raise e, _) => Raise e
      end
  end.

(** [FVSState.load(repo, state_id)] *)
Definition load (state_id : Z) (w : world) : result FVSState :=
  FVSState_init (Some state_id) w.

(** [__is_initialized] *)
Definition is_initialized : M bool :=
  w ← get_env;
  match is_valid_state (next_state_id repo) w with
  | Raise (FVSStateNotFound _) => mret false
  | Raise e => raise e
  | Ret _ => mret true
  end.

(** [__save_state] *)
Definition save_state : M unit :=
  s ← get_self;
  match st_state_id s with
  | None => raise TypeError
  | Some i =>
      state_path ← new_state_path_by_id i;
      s ← get_self;
      write_yaml (os_path_join state_path "files.yml") (st_files s)
  end.

(** The bodies of the four loops of commit. *)
Definition commit_added (fvs_data : FVSData) (_file : item) : M FVSData :=
  f ← lift (descriptor_of _file);
  let fvs_data := add_file fvs_data f in
  v ← lift (stored_entry_of _file);
  k ← lift (item_getitem _file "md5");
  modify_files (fun fl => set_added (dict_set (added fl) k v) fl);;
  mret fvs_data.

Definition commit_modified (fvs_data : FVSData) (_file : item) : M FVSData :=
  f ← lift (descriptor_of _file);
  let fvs_data := add_file fvs_data f in
  v ← lift (stored_entry_of _file);
  k ← lift (item_getitem _file "md5");
  modify_files (fun fl => set_modified (dict_set (modified fl) k v) fl);;
  mret fvs_data.

Definition commit_removed (fvs_data : FVSData) (_file : item) : M FVSData :=
  v ← lift (stored_entry_of _file);
  k ← lift (item_getitem _file "md5");
  modify_files (fun fl => set_removed (dict_set (removed fl) k v) fl);;
  mret fvs_data.

Definition commit_intact (fvs_data : FVSData) (_file : item) : M FVSData :=
  v ← lift (stored_entry_of _file);
  k ← lift (item_getitem _file "md5");
  modify_files (fun fl => set_intact (dict_set (intact fl) k v) fl);;
  mret fvs_data.

(** [for _file in unstaged_files[key]: body] *)
Definition for_key (unstaged_files : gmap string pyval) (key : string)
    (body : FVSData -> item -> M FVSData) (fvs_data : FVSData) : M FVSData :=
  v ← lift (dict_getitem unstaged_files key);
  items ← lift (py_iter v);
  for_each items body fvs_data.

(** "Instantiate the FVSData class and start collecting the files": the
    transaction object and the four loops of commit. *)
Definition collect_files (unstaged_files : gmap string pyval) : M FVSData :=
  fvs_data ← for_key unstaged_files "added" commit_added FVSData_new;
  fvs_data ← for_key unstaged_files "modified" commit_modified fvs_data;
  fvs_data ← for_key unstaged_files "removed" commit_removed fvs_data;
  for_key unstaged_files "intact" commit_intact fvs_data.

(** [commit].  [caller] is what [FVSUtils.get_caller_class_name()] returns. *)
Definition commit (caller : string) (message : pyval)
    (unstaged_files : gmap string pyval) : M unit :=
  if negb (String.eqb caller "FVSRepo") then raise (FVSCallerWrongClass "FVSRepo")
  else
    initialized ← is_initialized;
    if (initialized : bool) then raise FVSCommittingToExistingState
    else if py_in message [PyNone; PyStr ""] then raise FVSEmptyCommitMessage
    else if py_in (PyBool false)
              [dict_get unstaged_files "count";
               dict_get unstaged_files "added";
               dict_get unstaged_files "modified";
               dict_get unstaged_files "removed";
               dict_get unstaged_files "intact"]
    then raise FVSWrongUnstagedDict
    else
      modify_self (fun s =>
        MkState (st_files s) (Some (next_state_id repo)) (st_state_path s));;
      c ← lift (dict_getitem unstaged_files "count");
      modify_files (set_count c);;
      fvs_data ← collect_files unstaged_files;
      complete_transaction fvs_data;;
      save_state.

(** [break_references] *)
Definition break_references (caller : string) : M unit :=
  if negb (String.eqb caller "FVSRepo") then raise (FVSCallerWrongClass "FVSRepo")
  else
    s ← get_self;
    let fvs_data := FVSData_new in
    let fvs_data :=
      fold_left (fun d _file => delete_file d (file_of_entry _file))
                (values (added (st_files s))) fvs_data in
    let fvs_data :=
      fold_left (fun d _file => delete_file d (file_of_entry _file))
                (values (modified (st_files s))) fvs_data in
    complete_transaction fvs_data.

(** A freshly constructed state, [FVSState(repo)]. *)
Definition fresh : FVSState := MkState empty_files None None.

(** A repository with nothing on storage yet. *)
Definition empty_world : world := World ∅ [].

(** The machine after [self.__files] went through [g]. *)
Definition with_files (g : files -> files) (m : machine) : machine :=
  Machine (MkState (g (st_files (self m))) (st_state_id (self m))
                   (st_state_path (self m)))
          (env m).

(** The machine after [self.__state_id = self.__repo.next_state_id]. *)
Definition with_next_id (m : machine) : machine :=
  Machine (MkState (st_files (self m)) (Some (next_state_id repo))
                   (st_state_path (self m)))
          (env m).

(** The [files.yml] of a state. *)
Definition files_yml (state_id : Z) : string :=
  os_path_join (state_dir state_id) "files.yml".

(** The outside after a transaction [ops] was completed and the metadata
    [data] of state [state_id] was saved, in this order. *)
Definition persisted (state_id : Z) (ops : list op) (data : files) (w : world) : world :=
  World (<[files_yml state_id := File (yaml_dump data)]>
           (<[state_dir state_id := Dir]> (fs w)))
        (trace w ++ [Transaction ops; MakeDirs (state_dir state_id);
                     WriteFile (files_yml state_id) (yaml_dump data)])%list.

(** The descriptors registered for the entries of a sequence. *)
Definition adds (l : list file_entry) : list op :=
  map (fun e => Add (file_of_entry e)) l.

(** The deletions submitted for the entries of a partition. *)
Definition deletes (d : dict) : list op :=
  map (fun e => Delete (file_of_entry e)) (values d).

(** What collect_files leaves untouched. *)
Definition quiet {A} (c : M A) : Prop :=
  forall m r m', c m = (r, m') ->
    env m' = env m /\
    st_state_id (self m') = st_state_id (self m) /\
    (forall e, r = Raise e -> shape_error e).

(** A partition whose hashes are pairwise different, each entry stored under
    its own hash and taken from the sequence [l]. *)
Definition well_keyed (d : dict) (l : list file_entry) : Prop :=
  NoDup (keys d) /\ forall k v, (k, v) ∈ d -> k = md5 v /\ v ∈ l.

(** The last entry of a sequence with the content hash [h]. *)
Definition latest (h : string) (l : list file_entry) : option file_entry :=
  last (filter (fun e => md5 e = h) l).

(** What collect_files leaves of the rest of the state. *)
Definition keeps_header {A} (c : M A) : Prop :=
  forall m r m', c m = (r, m') ->
    count (st_files (self m')) = count (st_files (self m)) /\
    st_state_path (self m') = st_state_path (self m).

(** ** Ordered dicts *)

Lemma dict_mem_keys (k : string) (d : dict) :
  dict_mem k d = true <-> k ∈ keys d.
Proof.
  unfold dict_mem, keys.
  induction d as [|[k' v'] d IH]; simpl.
  - split; [discriminate | intros H; inversion H].
  - rewrite orb_true_iff, String.eqb_eq, IH, elem_of_cons. intuition congruence.
Qed.

Lemma dict_mem_not_keys (k : string) (d : dict) :
  dict_mem k d = false <-> k ∉ keys d.
Proof.
  rewrite <- dict_mem_keys. destruct (dict_mem k d); intuition congruence.
Qed.

Lemma keys_dict_set (d : dict) (k : string) (v : file_entry) (h : string) :
  h ∈ keys (dict_set d k v) <-> h ∈ keys d \/ h = k.
Proof.
  unfold keys.
  induction d as [|[k' v'] d IH]; simpl.
  - rewrite elem_of_cons, !elem_of_nil. tauto.
  - destruct (String.eqb_spec k' k) as [->|Hne]; simpl.
    + rewrite !elem_of_cons. intuition congruence.
    + rewrite !elem_of_cons, IH. tauto.
Qed.

Lemma keys_store_all (l : list file_entry) (d : dict) (h : string) :
  h ∈ keys (store_all d l) <-> h ∈ keys d \/ h ∈ map md5 l.
Proof.
  unfold store_all.
  revert d. induction l as [|e l IH]; intros d; simpl.
  - rewrite elem_of_nil. tauto.
  - rewrite IH, keys_dict_set, elem_of_cons. intuition congruence.
Qed.

(** ** has_file *)

(** C7: has_file(h) is true exactly when h is a key of added, modified or
    intact, and false exactly when it is a key of none of the three, whatever
    the removed partition holds. *)
Theorem has_file_iff (st : FVSState) (h : string) :
  (has_file st h = true <->
     (h ∈ keys (added (st_files st)) \/ h ∈ keys (modified (st_files st))
      \/ h ∈ keys (intact (st_files st))))
  /\ (has_file st h = false <->
     ((h ∉ keys (added (st_files st))) /\ (h ∉ keys (modified (st_files st)))
      /\ (h ∉ keys (intact (st_files st))))).
Proof.
  unfold has_file.
  rewrite <- !dict_mem_keys.
  destruct (dict_mem h (added (st_files st))),
           (dict_mem h (modified (st_files st))),
           (dict_mem h (intact (st_files st))); simpl; intuition congruence.
Qed.

(** A hash that only the removed partition holds is not reported. *)
Example has_file_removed_only :
  has_file (MkState (Files (PyInt 1) [] [] [("hashD", entry_d)] []) None None) "hashD"
  = false.
Proof. reflexivity. Qed.

(** ** has_relative_path *)

Lemma scan_app (p : string) (l1 l2 : list file_entry) :
  scan p (l1 ++ l2) =
  match scan p l1 with
  | Some f => Some f
  | None => scan p l2
  end.
Proof.
  unfold scan. induction l1 as [|x l1 IH]; simpl; [done|].
  destruct (String.eqb (relative_path x) p); done.
Qed.

(** Under [any] the lookup returns the first match of intact, modified and
    added, in this order; with no match it falls through to
    [self.__files["any"]]. *)
Lemma has_relative_path_any (st : FVSState) (p : string) :
  has_relative_path st p "any" =
  match scan p (values (intact (st_files st)) ++ values (modified (st_files st))
                ++ values (added (st_files st))) with
  | Some f => Ret (Some f)
  | None => Raise (KeyError "any")
  end.
Proof.
  unfold has_relative_path. simpl. rewrite !scan_app.
  destruct (scan p (values (intact (st_files st)))); [done|].
  destruct (scan p (values (modified (st_files st)))); [done|].
  destruct (scan p (values (added (st_files st)))); done.
Qed.

(** With one of the three partition scopes the lookup always returns. *)
Lemma has_relative_path_scoped (st : FVSState) (p : string) :
  has_relative_path st p "added" = Ret (scan p (values (added (st_files st))))
  /\ has_relative_path st p "modified" = Ret (scan p (values (modified (st_files st))))
  /\ has_relative_path st p "intact" = Ret (scan p (values (intact (st_files st)))).
Proof.
  unfold has_relative_path; simpl.
  split; [|split].
  - destruct (scan p (values (added (st_files st)))); done.
  - destruct (scan p (values (modified (st_files st)))); done.
  - destruct (scan p (values (intact (st_files st)))); done.
Qed.

(** C2: whenever none of the intact, modified and added entries of a state has
    the path, has_relative_path with the scope any does not return the
    not-found signal: it raises KeyError. *)
Theorem has_relative_path_any_not_found_raises (st : FVSState) (p : string) :
  scan p (values (intact (st_files st)) ++ values (modified (st_files st))
          ++ values (added (st_files st))) = None ->
  has_relative_path st p "any" = Raise (KeyError "any").
Proof.
  intros Hmiss. rewrite has_relative_path_any, Hmiss. reflexivity.
Qed.

(** C6: under the scope any the first entry with the path among intact, then
    modified, then added is returned; the removed partition plays no part; and
    an entry of intact with the path wins over whatever added holds. *)
Theorem has_relative_path_any_order (st : FVSState) (p : string) :
  (forall f,
     scan p (values (intact (st_files st)) ++ values (modified (st_files st))
             ++ values (added (st_files st))) = Some f ->
     has_relative_path st p "any" = Ret (Some f))
  /\ (forall r',
        has_relative_path
          (MkState (set_removed r' (st_files st)) (st_state_id st) (st_state_path st))
          p "any"
        = has_relative_path st p "any")
  /\ (forall fi,
        scan p (values (intact (st_files st))) = Some fi ->
        has_relative_path st p "any" = Ret (Some fi)).
Proof.
  split; [|split].
  - intros f Hf. rewrite has_relative_path_any, Hf. done.
  - intros r'. rewrite !has_relative_path_any. reflexivity.
  - intros fi Hfi. rewrite has_relative_path_any, scan_app, Hfi. done.
Qed.

(** ** The method monad *)

Lemma bind_run {A B} (c : M A) (k : A -> M B) (m : machine) :
  (c ≫= k) m =
  match c m with
  | (Ret a, m') => k a m'
  | (Raise e, m') => (Raise e, m')
  end.
Proof. reflexivity. Qed.

Lemma quiet_ret {A} (a : A) : quiet (mret a).
Proof.
  intros m r m' H. inversion H; subst. split; [done|]. split; [done|].
  intros e He. discriminate.
Qed.

Lemma quiet_bind {A B} (c : M A) (k : A -> M B) :
  quiet c -> (forall a, quiet (k a)) -> quiet (c ≫= k).
Proof.
  intros Hc Hk m r m' H. rewrite bind_run in H.
  destruct (c m) as [[a|e] m1] eqn:E.
  - destruct (Hc _ _ _ E) as (He & Hi & _).
    destruct (Hk a _ _ _ H) as (He' & Hi' & Hr').
    split; [congruence|]. split; [congruence|]. done.
  - inversion H; subst. destruct (Hc _ _ _ E) as (He & Hi & Hr).
    split; [done|]. split; [done|].
    intros e0 He0. inversion He0; subst. by apply Hr.
Qed.

Lemma quiet_lift {A} (r : result A) :
  (forall e, r = Raise e -> shape_error e) -> quiet (lift r).
Proof.
  intros Hr m r' m' H. inversion H; subst. done.
Qed.

Lemma quiet_modify_files (g : files -> files) : quiet (modify_files g).
Proof.
  intros m r m' H. inversion H; subst; simpl. split; [done|]. split; [done|].
  intros e He. discriminate.
Qed.

Lemma quiet_for_each {A B} (l : list A) (body : B -> A -> M B) :
  (forall acc x, quiet (body acc x)) -> forall acc, quiet (for_each l body acc).
Proof.
  intros Hbody. induction l as [|x l IH]; intros acc; simpl.
  - apply quiet_ret.
  - apply quiet_bind; [apply Hbody | apply IH].
Qed.

(** ** What the steps of commit can raise *)

Lemma item_getitem_shape (i : item) (k : string) (e : exn) :
  item_getitem i k = Raise e -> shape_error e.
Proof.
  destruct i as [en|c]; simpl.
  - repeat case_match; intros Hr; inversion Hr. right; eauto.
  - intros Hr; inversion Hr. by left.
Qed.

Lemma stored_entry_of_shape (i : item) (e : exn) :
  stored_entry_of i = Raise e -> shape_error e.
Proof.
  destruct i as [en|c]; simpl; intros H; inversion H. by left.
Qed.

Lemma descriptor_of_shape (i : item) (e : exn) :
  descriptor_of i = Raise e -> shape_error e.
Proof.
  destruct i as [en|c]; simpl; intros H; inversion H. by left.
Qed.

Lemma dict_getitem_shape (d : gmap string pyval) (k : string) (e : exn) :
  dict_getitem d k = Raise e -> shape_error e.
Proof.
  unfold dict_getitem. destruct (d !! k); intros H; inversion H. right; eauto.
Qed.

Lemma py_iter_shape (v : pyval) (e : exn) :
  py_iter v = Raise e -> shape_error e.
Proof.
  destruct v; simpl; intros H; inversion H; by left.
Qed.

Lemma quiet_commit_added acc x : quiet (commit_added acc x).
Proof.
  unfold commit_added.
  apply quiet_bind; [apply quiet_lift, descriptor_of_shape | intros f].
  apply quiet_bind; [apply quiet_lift, stored_entry_of_shape | intros v].
  apply quiet_bind; [apply quiet_lift, item_getitem_shape | intros k].
  apply quiet_bind; [apply quiet_modify_files | intros _; apply quiet_ret].
Qed.

Lemma quiet_commit_modified acc x : quiet (commit_modified acc x).
Proof.
  unfold commit_modified.
  apply quiet_bind; [apply quiet_lift, descriptor_of_shape | intros f].
  apply quiet_bind; [apply quiet_lift, stored_entry_of_shape | intros v].
  apply quiet_bind; [apply quiet_lift, item_getitem_shape | intros k].
  apply quiet_bind; [apply quiet_modify_files | intros _; apply quiet_ret].
Qed.

Lemma quiet_commit_removed acc x : quiet (commit_removed acc x).
Proof.
  unfold commit_removed.
  apply quiet_bind; [apply quiet_lift, stored_entry_of_shape | intros v].
  apply quiet_bind; [apply quiet_lift, item_getitem_shape | intros k].
  apply quiet_bind; [apply quiet_modify_files | intros _; apply quiet_ret].
Qed.

Lemma quiet_commit_intact acc x : quiet (commit_intact acc x).
Proof.
  unfold commit_intact.
  apply quiet_bind; [apply quiet_lift, stored_entry_of_shape | intros v].
  apply quiet_bind; [apply quiet_lift, item_getitem_shape | intros k].
  apply quiet_bind; [apply quiet_modify_files | intros _; apply quiet_ret].
Qed.

Lemma quiet_for_key (d : gmap string pyval) (key : string)
    (body : FVSData -> item -> M FVSData) (acc : FVSData) :
  (forall acc x, quiet (body acc x)) -> quiet (for_key d key body acc).
Proof.
  intros Hbody. unfold for_key.
  apply quiet_bind; [apply quiet_lift, dict_getitem_shape | intros v].
  apply quiet_bind; [apply quiet_lift, py_iter_shape | intros items].
  by apply quiet_for_each.
Qed.

(** The four loops touch neither the outside nor the state id, and fail only
    with a KeyError or a TypeError. *)
Lemma quiet_collect_files (d : gmap string pyval) : quiet (collect_files d).
Proof.
  unfold collect_files.
  apply quiet_bind; [apply quiet_for_key, quiet_commit_added | intros a1].
  apply quiet_bind; [apply quiet_for_key, quiet_commit_modified | intros a2].
  apply quiet_bind; [apply quiet_for_key, quiet_commit_removed | intros a3].
  apply quiet_for_key, quiet_commit_intact.
Qed.

(** A loop that ran to its end found its key. *)
Lemma for_key_ret_key (d : gmap string pyval) (key : string)
    (body : FVSData -> item -> M FVSData) (acc x : FVSData) (m m' : machine) :
  for_key d key body acc m = (Ret x, m') -> is_Some (d !! key).
Proof.
  unfold for_key, dict_getitem. rewrite bind_run. unfold lift.
  destruct (d !! key); [eauto | discriminate].
Qed.

Lemma collect_files_ret_keys (d : gmap string pyval) (x : FVSData) (m m' : machine) :
  collect_files d m = (Ret x, m') ->
  is_Some (d !! "added") /\ is_Some (d !! "modified") /\
  is_Some (d !! "removed") /\ is_Some (d !! "intact").
Proof.
  unfold collect_files. rewrite bind_run.
  destruct (for_key d "added" commit_added FVSData_new m) as [[a1|e1] m1] eqn:E1;
    [|discriminate].
  rewrite bind_run.
  destruct (for_key d "modified" commit_modified a1 m1) as [[a2|e2] m2] eqn:E2;
    [|discriminate].
  rewrite bind_run.
  destruct (for_key d "removed" commit_removed a2 m2) as [[a3|e3] m3] eqn:E3;
    [|discriminate].
  intros E4.
  split; [eapply for_key_ret_key, E1|].
  split; [eapply for_key_ret_key, E2|].
  split; [eapply for_key_ret_key, E3|eapply for_key_ret_key, E4].
Qed.

(** ** The loops of commit on sequences of entries *)

Lemma entry_eta (e : file_entry) :
  FileEntry (file_name e) (md5 e) (relative_path e) = e.
Proof. by destruct e. Qed.

Lemma with_files_id (g : files -> files) (m : machine) :
  (forall f, g f = f) -> with_files g m = m.
Proof.
  intros Hg. unfold with_files. rewrite Hg. by destruct m as [[f i p] w].
Qed.

Lemma for_each_commit_added (l : list file_entry) (acc : FVSData) (m : machine) :
  for_each (map ItemEntry l) commit_added acc m =
  (Ret (acc ++ adds l)%list,
   with_files (fun f => set_added (store_all (added f) l) f) m).
Proof.
  revert acc m. induction l as [|e l IH]; intros acc m; simpl.
  - unfold adds; simpl. rewrite app_nil_r, with_files_id; [done|]. by intros [].
  - rewrite bind_run.
    change (commit_added acc (ItemEntry e) m) with
      (Ret (add_file acc (file_of_entry e)),
       with_files (fun f => set_added
         (dict_set (added f) (md5 e) (FileEntry (file_name e) (md5 e) (relative_path e))) f) m).
    lazy beta iota. rewrite IH, entry_eta. unfold add_file, adds; simpl.
    by rewrite <- app_assoc.
Qed.

Lemma for_each_commit_modified (l : list file_entry) (acc : FVSData) (m : machine) :
  for_each (map ItemEntry l) commit_modified acc m =
  (Ret (acc ++ adds l)%list,
   with_files (fun f => set_modified (store_all (modified f) l) f) m).
Proof.
  revert acc m. induction l as [|e l IH]; intros acc m; simpl.
  - unfold adds; simpl. rewrite app_nil_r, with_files_id; [done|]. by intros [].
  - rewrite bind_run.
    change (commit_modified acc (ItemEntry e) m) with
      (Ret (add_file acc (file_of_entry e)),
       with_files (fun f => set_modified
         (dict_set (modified f) (md5 e) (FileEntry (file_name e) (md5 e) (relative_path e))) f) m).
    lazy beta iota. rewrite IH, entry_eta. unfold add_file, adds; simpl.
    by rewrite <- app_assoc.
Qed.

Lemma for_each_commit_removed (l : list file_entry) (acc : FVSData) (m : machine) :
  for_each (map ItemEntry l) commit_removed acc m =
  (Ret acc, with_files (fun f => set_removed (store_all (removed f) l) f) m).
Proof.
  revert acc m. induction l as [|e l IH]; intros acc m; simpl.
  - rewrite with_files_id; [done|]. by intros [].
  - rewrite bind_run.
    change (commit_removed acc (ItemEntry e) m) with
      (Ret acc,
       with_files (fun f => set_removed
         (dict_set (removed f) (md5 e) (FileEntry (file_name e) (md5 e) (relative_path e))) f) m).
    lazy beta iota. by rewrite IH, entry_eta.
Qed.

Lemma for_each_commit_intact (l : list file_entry) (acc : FVSData) (m : machine) :
  for_each (map ItemEntry l) commit_intact acc m =
  (Ret acc, with_files (fun f => set_intact (store_all (intact f) l) f) m).
Proof.
  revert acc m. induction l as [|e l IH]; intros acc m; simpl.
  - rewrite with_files_id; [done|]. by intros [].
  - rewrite bind_run.
    change (commit_intact acc (ItemEntry e) m) with
      (Ret acc,
       with_files (fun f => set_intact
         (dict_set (intact f) (md5 e) (FileEntry (file_name e) (md5 e) (relative_path e))) f) m).
    lazy beta iota. by rewrite IH, entry_eta.
Qed.

Lemma for_key_list (d : gmap string pyval) (key : string)
    (body : FVSData -> item -> M FVSData) (acc : FVSData) (l : list file_entry)
    (m : machine) :
  d !! key = Some (PyList l) ->
  for_key d key body acc m = for_each (map ItemEntry l) body acc m.
Proof.
  intros Hk. unfold for_key, dict_getitem. rewrite Hk. reflexivity.
Qed.

(** On four sequences of entries the loops run to their end. *)
Lemma collect_files_lists (d : gmap string pyval) (la lm lr li : list file_entry)
    (m : machine) :
  d !! "added" = Some (PyList la) -> d !! "modified" = Some (PyList lm) ->
  d !! "removed" = Some (PyList lr) -> d !! "intact" = Some (PyList li) ->
  collect_files d m =
  (Ret (adds la ++ adds lm)%list,
   with_files (fun f => committed_files f (count f) la lm lr li) m).
Proof.
  intros Ha Hm Hr Hi. unfold collect_files.
  rewrite bind_run, (for_key_list _ _ _ _ _ _ Ha), for_each_commit_added.
  rewrite bind_run, (for_key_list _ _ _ _ _ _ Hm), for_each_commit_modified.
  rewrite bind_run, (for_key_list _ _ _ _ _ _ Hr), for_each_commit_removed.
  rewrite (for_key_list _ _ _ _ _ _ Hi), for_each_commit_intact.
  reflexivity.
Qed.

(** ** commit, step by step *)

Lemma is_initialized_run (m : machine) :
  is_initialized m = (Ret (path_exists (env m) (state_dir (next_state_id repo))), m).
Proof.
  unfold is_initialized. rewrite bind_run. unfold get_env, is_valid_state.
  destruct (path_exists (env m) (state_dir (next_state_id repo))); reflexivity.
Qed.

(** Once the state has its id, completing the transaction and saving the
    metadata cannot fail. *)
Lemma finish_run (ops : FVSData) (m : machine) (i : Z) :
  st_state_id (self m) = Some i ->
  (complete_transaction ops ≫= fun _ => save_state) m =
  (Ret tt, Machine (self m) (persisted i ops (st_files (self m)) (env m))).
Proof.
  destruct m as [[f id p] [fs0 tr]]; simpl. intros ->.
  unfold persisted, files_yml.
  lazy beta iota zeta delta
    [mbind M_bind mret M_ret complete_transaction save_state new_state_path_by_id
     write_yaml modify_env get_self self env fs trace st_state_id st_files].
  rewrite <- !app_assoc. reflexivity.
Qed.

(** The checks of commit in their order, then the body. *)
Lemma commit_run (caller : string) (message : pyval) (d : gmap string pyval)
    (m : machine) :
  commit caller message d m =
  if negb (String.eqb caller "FVSRepo")
  then (Raise (FVSCallerWrongClass "FVSRepo"), m)
  else if path_exists (env m) (state_dir (next_state_id repo))
  then (Raise FVSCommittingToExistingState, m)
  else if py_in message [PyNone; PyStr ""]
  then (Raise FVSEmptyCommitMessage, m)
  else if py_in (PyBool false)
            [dict_get d "count"; dict_get d "added"; dict_get d "modified";
             dict_get d "removed"; dict_get d "intact"]
  then (Raise FVSWrongUnstagedDict, m)
  else
    match d !! "count" with
    | None => (Raise (KeyError "count"), with_next_id m)
    | Some c =>
        match collect_files d (with_files (set_count c) (with_next_id m)) with
        | (Ret ops, m1) => (complete_transaction ops ≫= fun _ => save_state) m1
        | (Raise e, m1) => (Raise e, m1)
        end
    end.
Proof.
  unfold commit.
  destruct (negb (String.eqb caller "FVSRepo")); [done|].
  rewrite bind_run, is_initialized_run.
  destruct (path_exists (env m) (state_dir (next_state_id repo))); [done|].
  destruct (py_in message [PyNone; PyStr ""]); [done|].
  destruct (py_in (PyBool false) _); [done|].
  rewrite bind_run. unfold modify_self at 1. lazy beta iota.
  rewrite bind_run. unfold lift at 1, dict_getitem at 1.
  destruct (d !! "count") as [c|]; [|done].
  lazy beta iota. rewrite bind_run. reflexivity.
Qed.

Lemma py_eq_False (v : pyval) :
  py_eq v (PyBool false) = true <-> equals_False v.
Proof.
  unfold equals_False.
  destruct v as [|b|z|s0|l]; simpl; rewrite ?bool_decide_eq_true.
  - split; [discriminate | intros [H|H]; discriminate].
  - split; [intros ->; by left | intros [H|H]; congruence].
  - split; [intros ->; by right | intros [H|H]; congruence].
  - split; [discriminate | intros [H|H]; discriminate].
  - split; [discriminate | intros [H|H]; discriminate].
Qed.

Lemma diff_check_iff (d : gmap string pyval) (c va vm vr vi : pyval) :
  d !! "count" = Some c -> d !! "added" = Some va -> d !! "modified" = Some vm ->
  d !! "removed" = Some vr -> d !! "intact" = Some vi ->
  py_in (PyBool false)
    [dict_get d "count"; dict_get d "added"; dict_get d "modified";
     dict_get d "removed"; dict_get d "intact"] = true
  <-> (equals_False c \/ equals_False va \/ equals_False vm \/ equals_False vr
       \/ equals_False vi).
Proof.
  intros Hc Ha Hm Hr Hi. unfold dict_get. rewrite Hc, Ha, Hm, Hr, Hi. simpl.
  rewrite !orb_true_iff, !py_eq_False. intuition discriminate.
Qed.

(** A commit of four sequences of entries with a count that is not equal to
    False. *)
Lemma commit_lists (message : pyval) (d : gmap string pyval) (m : machine)
    (c : pyval) (la lm lr li : list file_entry) :
  path_exists (env m) (state_dir (next_state_id repo)) = false ->
  py_in message [PyNone; PyStr ""] = false ->
  d !! "count" = Some c -> py_eq c (PyBool false) = false ->
  d !! "added" = Some (PyList la) -> d !! "modified" = Some (PyList lm) ->
  d !! "removed" = Some (PyList lr) -> d !! "intact" = Some (PyList li) ->
  commit "FVSRepo" message d m =
  (Ret tt,
   Machine (MkState (committed_files (st_files (self m)) c la lm lr li)
                    (Some (next_state_id repo)) (st_state_path (self m)))
           (persisted (next_state_id repo) (adds la ++ adds lm)
                      (committed_files (st_files (self m)) c la lm lr li) (env m))).
Proof.
  intros Hnew Hmsg Hc Hc0 Ha Hm Hr Hi.
  rewrite commit_run.
  change (negb (String.eqb "FVSRepo" "FVSRepo")) with false. lazy iota. rewrite Hnew, Hmsg.
  unfold dict_get. rewrite Hc, Ha, Hm, Hr, Hi. simpl. rewrite Hc0. simpl.
  rewrite (collect_files_lists _ _ _ _ _ _ Ha Hm Hr Hi).
  rewrite (finish_run _ _ (next_state_id repo)); reflexivity.
Qed.

(** ** load *)

Lemma load_absent (i : Z) (w : world) :
  path_exists w (state_dir i) = false -> load i w = Raise (FVSStateNotFound i).
Proof.
  intros H. unfold load, FVSState_init, load_state.
  rewrite bind_run. unfold modify_self at 1. lazy beta iota.
  rewrite bind_run. unfold get_env at 1.
  lazy beta iota delta [env self st_files st_state_id st_state_path].
  fold (state_dir i). rewrite H. reflexivity.
Qed.

Lemma load_run (i : Z) (w : world) (content : doc) (f : files) :
  is_Some (fs w !! state_dir i) ->
  fs w !! files_yml i = Some (File content) ->
  yaml_safe_load content = Some f ->
  load i w = Ret (MkState f (Some i) (Some (state_dir i))).
Proof.
  intros Hdir Hfile Hload. unfold load, FVSState_init, load_state.
  rewrite bind_run. unfold modify_self at 1. lazy beta iota.
  rewrite bind_run. unfold get_env at 1.
  lazy beta iota delta [env self st_files st_state_id st_state_path].
  fold (state_dir i). fold (files_yml i).
  unfold path_exists. rewrite (bool_decide_eq_true_2 _ Hdir).
  change (negb true) with false. lazy iota.
  rewrite bind_run. unfold read_yaml. rewrite bind_run. unfold get_env at 1.
  lazy beta iota delta [env]. rewrite Hfile. lazy beta iota. rewrite Hload.
  reflexivity.
Qed.

(** ** The diff check of commit *)

Lemma shape_error_not_check (e : exn) :
  shape_error e -> e <> FVSEmptyCommitMessage /\ e <> FVSWrongUnstagedDict.
Proof.
  intros [->|[k ->]]; split; discriminate.
Qed.

(** What a commit that got past its four checks can still raise. *)
Lemma commit_body_raise (d : gmap string pyval) (m : machine) (e : exn)
    (m' : machine) :
  match d !! "count" with
  | None => (Raise (KeyError "count"), with_next_id m)
  | Some c =>
      match collect_files d (with_files (set_count c) (with_next_id m)) with
      | (Ret ops, m1) => (complete_transaction ops ≫= fun _ => save_state) m1
      | (Raise e, m1) => (Raise e, m1)
      end
  end = (Raise e, m') ->
  shape_error e /\ env m' = env m.
Proof.
  destruct (d !! "count") as [c|].
  - destruct (collect_files d (with_files (set_count c) (with_next_id m)))
      as [[ops|e1] m1] eqn:E.
    + destruct (quiet_collect_files _ _ _ _ E) as (_ & Hid & _).
      rewrite (finish_run _ _ (next_state_id repo)) by (by rewrite Hid).
      discriminate.
    + intros H. inversion H; subst.
      destruct (quiet_collect_files _ _ _ _ E) as (Henv & _ & Hr).
      split; [by apply Hr | by rewrite Henv].
  - intros H. inversion H; subst. split; [right; eauto | done].
Qed.

(** C10: a diff whose count is 0 is rejected with FVSWrongUnstagedDict by a
    commit that got as far as the diff check, whatever the four sequences
    hold, because 0 compares equal to False. *)
Theorem commit_zero_count_rejected (message : pyval) (d : gmap string pyval)
    (m : machine) :
  path_exists (env m) (state_dir (next_state_id repo)) = false ->
  py_in message [PyNone; PyStr ""] = false ->
  d !! "count" = Some (PyInt 0) ->
  commit "FVSRepo" message d m = (Raise FVSWrongUnstagedDict, m).
Proof.
  intros Hnew Hmsg Hc. rewrite commit_run.
  change (negb (String.eqb "FVSRepo" "FVSRepo")) with false. lazy iota.
  rewrite Hnew, Hmsg. unfold dict_get at 1. rewrite Hc. reflexivity.
Qed.

(** C1 (amended): for a diff that supplies all five keys, a commit that got as
    far as the diff check fails with FVSWrongUnstagedDict exactly when one of
    the five values compares equal to False, that is, is the boolean False or
    the integer 0; a value that is only falsy, such as an empty sequence,
    passes the check. *)
Theorem commit_wrong_unstaged_dict_iff (message : pyval) (d : gmap string pyval)
    (m : machine) (c va vm vr vi : pyval) :
  path_exists (env m) (state_dir (next_state_id repo)) = false ->
  py_in message [PyNone; PyStr ""] = false ->
  d !! "count" = Some c -> d !! "added" = Some va -> d !! "modified" = Some vm ->
  d !! "removed" = Some vr -> d !! "intact" = Some vi ->
  fst (commit "FVSRepo" message d m) = Raise FVSWrongUnstagedDict
  <-> (equals_False c \/ equals_False va \/ equals_False vm \/ equals_False vr
       \/ equals_False vi).
Proof.
  intros Hnew Hmsg Hc Ha Hm Hr Hi.
  rewrite <- (diff_check_iff d c va vm vr vi Hc Ha Hm Hr Hi).
  rewrite commit_run.
  change (negb (String.eqb "FVSRepo" "FVSRepo")) with false. lazy iota. rewrite Hnew, Hmsg.
  destruct (py_in (PyBool false) _) eqn:Hcheck; [done|].
  split; [|discriminate].
  intros H.
  match type of H with fst ?x = _ => destruct x as [r m'] eqn:E end.
  simpl in H. subst r.
  destruct (commit_body_raise _ _ _ _ E) as (Hs & _).
  by destruct (shape_error_not_check _ Hs).
Qed.

(** ** Failure leaves nothing behind *)

(** C3: a commit that fails on its message check or its diff check, or on a
    diff whose shape Python itself rejects, has completed no content-store
    transaction and written no metadata: the outside is as before, and loading
    the state id it was about to take still reports the state absent.  After
    one of the two checks the state object is unchanged as well. *)
Theorem commit_failure_no_persisted_effect (caller : string) (message : pyval)
    (d : gmap string pyval) (m : machine) (e : exn) (m' : machine) :
  commit caller message d m = (Raise e, m') ->
  e = FVSEmptyCommitMessage \/ e = FVSWrongUnstagedDict \/ shape_error e ->
  env m' = env m
  /\ load (next_state_id repo) (env m') = Raise (FVSStateNotFound (next_state_id repo))
  /\ (e = FVSEmptyCommitMessage \/ e = FVSWrongUnstagedDict -> m' = m).
Proof.
  intros Hrun He. rewrite commit_run in Hrun.
  assert (Hne1 : e <> FVSCallerWrongClass "FVSRepo").
  { destruct He as [->|[->|[->|[k ->]]]]; discriminate. }
  assert (Hne2 : e <> FVSCommittingToExistingState).
  { destruct He as [->|[->|[->|[k ->]]]]; discriminate. }
  destruct (negb (String.eqb caller "FVSRepo")); [inversion Hrun; congruence|].
  destruct (path_exists (env m) (state_dir (next_state_id repo))) eqn:Hnew;
    [inversion Hrun; congruence|].
  destruct (py_in message [PyNone; PyStr ""]).
  { inversion Hrun; subst. by rewrite load_absent. }
  destruct (py_in (PyBool false) _).
  { inversion Hrun; subst. by rewrite load_absent. }
  destruct (commit_body_raise _ _ _ _ Hrun) as (Hs & Henv).
  rewrite Henv, load_absent by done.
  split; [done|]. split; [done|].
  destruct (shape_error_not_check _ Hs) as [H1 H2]. intros [H|H]; congruence.
Qed.

(** ** Order of the persisted effects *)

(** C9: a commit that succeeds adds exactly three effects to the outside, in
    this order: the completed content-store transaction, the creation of the
    state's directory, and the write of the metadata; the metadata written is
    that of the state as committed. *)
Theorem commit_content_before_metadata (caller : string) (message : pyval)
    (d : gmap string pyval) (m : machine) (u : unit) (m' : machine) :
  commit caller message d m = (Ret u, m') ->
  exists ops,
    trace (env m') =
      (trace (env m) ++
         [Transaction ops;
          MakeDirs (state_dir (next_state_id repo));
          WriteFile (files_yml (next_state_id repo))
                    (yaml_dump (st_files (self m')))])%list
    /\ fs (env m') =
        <[files_yml (next_state_id repo) := File (yaml_dump (st_files (self m')))]>
          (<[state_dir (next_state_id repo) := Dir]> (fs (env m))).
Proof.
  intros Hrun. rewrite commit_run in Hrun.
  destruct (negb (String.eqb caller "FVSRepo")); [discriminate|].
  destruct (path_exists (env m) (state_dir (next_state_id repo))); [discriminate|].
  destruct (py_in message [PyNone; PyStr ""]); [discriminate|].
  destruct (py_in (PyBool false) _); [discriminate|].
  destruct (d !! "count") as [c|]; [|discriminate].
  destruct (collect_files d (with_files (set_count c) (with_next_id m)))
    as [[ops|e1] m1] eqn:E; [|discriminate].
  destruct (quiet_collect_files _ _ _ _ E) as (Henv & Hid & _).
  rewrite (finish_run _ _ (next_state_id repo)) in Hrun by (by rewrite Hid).
  inversion Hrun; subst. exists ops. simpl. rewrite Henv. done.
Qed.

(** ** Round trip through storage *)

(** C4: where the codec reads back what it wrote, a commit of a diff with all
    five keys, four sequences of entries and a count not equal to False
    succeeds, and loading the id it took returns a state with the same count
    and the same four partitions as the committed state in memory, which are
    the ones built from the diff. *)
Theorem commit_load_roundtrip (message : pyval) (d : gmap string pyval)
    (m : machine) (c : pyval) (la lm lr li : list file_entry) :
  (forall f, yaml_safe_load (yaml_dump f) = Some f) ->
  path_exists (env m) (state_dir (next_state_id repo)) = false ->
  py_in message [PyNone; PyStr ""] = false ->
  d !! "count" = Some c -> py_eq c (PyBool false) = false ->
  d !! "added" = Some (PyList la) -> d !! "modified" = Some (PyList lm) ->
  d !! "removed" = Some (PyList lr) -> d !! "intact" = Some (PyList li) ->
  exists m' st,
    commit "FVSRepo" message d m = (Ret tt, m')
    /\ st_state_id (self m') = Some (next_state_id repo)
    /\ load (next_state_id repo) (env m') = Ret st
    /\ st_files st = st_files (self m')
    /\ st_files st = committed_files (st_files (self m)) c la lm lr li.
Proof.
  intros Hcodec Hnew Hmsg Hc Hc0 Ha Hm Hr Hi.
  eexists _, (MkState (committed_files (st_files (self m)) c la lm lr li)
                      (Some (next_state_id repo))
                      (Some (state_dir (next_state_id repo)))).
  split; [by apply (commit_lists _ _ _ c la lm lr li)|].
  split; [done|]. simpl.
  split; [|done].
  eapply load_run; [| |apply Hcodec]; unfold persisted; simpl.
  - destruct (decide (files_yml (next_state_id repo) = state_dir (next_state_id repo)))
      as [Heq|Hne].
    + rewrite Heq, lookup_insert_eq. eauto.
    + rewrite lookup_insert_ne, lookup_insert_eq by done. eauto.
  - by rewrite lookup_insert_eq.
Qed.

(** ** Keys of the committed partitions *)

Lemma keys_store_all_empty (l : list file_entry) (h : string) :
  h ∈ keys (store_all [] l) <-> h ∈ map md5 l.
Proof.
  rewrite keys_store_all. unfold keys; simpl. rewrite elem_of_nil. tauto.
Qed.

Lemma disjoint_store_all_empty (l1 l2 : list file_entry) :
  keys (store_all [] l1) ## keys (store_all [] l2) <-> map md5 l1 ## map md5 l2.
Proof.
  split; intros H x H1 H2; apply (H x); by apply keys_store_all_empty.
Qed.

(** C8 (amended): commit does not compare the four sequences with each other.
    On a freshly constructed state, a commit of a diff with all five keys
    succeeds, and the key sets of the four partitions of the committed state
    are pairwise disjoint exactly when no content hash occurs in two of the
    four sequences of the diff. *)
Theorem commit_partitions_disjoint_iff (message : pyval) (d : gmap string pyval)
    (w : world) (c : pyval) (la lm lr li : list file_entry) :
  path_exists w (state_dir (next_state_id repo)) = false ->
  py_in message [PyNone; PyStr ""] = false ->
  d !! "count" = Some c -> py_eq c (PyBool false) = false ->
  d !! "added" = Some (PyList la) -> d !! "modified" = Some (PyList lm) ->
  d !! "removed" = Some (PyList lr) -> d !! "intact" = Some (PyList li) ->
  exists m',
    commit "FVSRepo" message d (Machine fresh w) = (Ret tt, m')
    /\ (partitions_disjoint (st_files (self m')) <-> sequences_disjoint la lm lr li).
Proof.
  intros Hnew Hmsg Hc Hc0 Ha Hm Hr Hi.
  eexists. split; [by apply (commit_lists _ _ _ c la lm lr li)|].
  unfold partitions_disjoint, sequences_disjoint; simpl.
  by rewrite !disjoint_store_all_empty.
Qed.

(** ** break_references *)

Lemma fold_left_delete_file (l : list file_entry) (acc : FVSData) :
  fold_left (fun d _file => delete_file d (file_of_entry _file)) l acc =
  (acc ++ map (fun e => Delete (file_of_entry e)) l)%list.
Proof.
  revert acc. induction l as [|e l IH]; intros acc; simpl.
  - by rewrite app_nil_r.
  - rewrite IH. unfold delete_file. by rewrite <- app_assoc.
Qed.

(** C5: break_references, called by the repository, leaves the state and the
    file system as they are and completes one transaction, which holds one
    delete for each entry of added followed by one delete for each entry of
    modified, and nothing else; removed and intact contribute nothing. *)
Theorem break_references_deletes (m : machine) :
  break_references "FVSRepo" m =
    (Ret tt,
     Machine (self m)
       (World (fs (env m))
          (trace (env m) ++
             [Transaction (deletes (added (st_files (self m))) ++
                           deletes (modified (st_files (self m))))])%list))
  /\ length (deletes (added (st_files (self m))) ++
             deletes (modified (st_files (self m))))
     = (length (added (st_files (self m))) + length (modified (st_files (self m))))%nat.
Proof.
  split.
  - unfold break_references.
    change (negb (String.eqb "FVSRepo" "FVSRepo")) with false. lazy iota.
    rewrite bind_run. unfold get_self at 1. lazy beta iota zeta.
    rewrite !fold_left_delete_file. reflexivity.
  - unfold deletes, values. by rewrite length_app, !length_map.
Qed.

(** A diff that lacks one of the five keys is never committed by a call that
    got past the caller, slot and message checks. *)
Lemma commit_missing_key_fails (message : pyval) (d : gmap string pyval)
    (m : machine) (key : string) :
  key ∈ ["count"; "added"; "modified"; "removed"; "intact"] ->
  d !! key = None ->
  exists e m', commit "FVSRepo" message d m = (Raise e, m').
Proof.
  intros Hkey Hnone.
  destruct (commit "FVSRepo" message d m) as [[u|e] m'] eqn:Hrun; [|eauto].
  exfalso. rewrite commit_run in Hrun.
  change (negb (String.eqb "FVSRepo" "FVSRepo")) with false in Hrun.
  lazy iota in Hrun.
  destruct (path_exists (env m) (state_dir (next_state_id repo))); [discriminate|].
  destruct (py_in message [PyNone; PyStr ""]); [discriminate|].
  destruct (py_in (PyBool false) _); [discriminate|].
  destruct (d !! "count") as [c|] eqn:Hc; [|discriminate].
  destruct (collect_files d (with_files (set_count c) (with_next_id m)))
    as [[ops|e1] m1] eqn:E; [|discriminate].
  destruct (collect_files_ret_keys _ _ _ _ E) as ([? Ha] & [? Hm] & [? Hr] & [? Hi]).
  rewrite !elem_of_cons, elem_of_nil in Hkey.
  destruct Hkey as [->|[->|[->|[->|[->|[]]]]]]; congruence.
Qed.

(** ** More on ordered dicts *)

Lemma elem_of_dict_set (d : dict) (k : string) (v : file_entry)
    (h : string) (e : file_entry) :
  NoDup (keys d) ->
  (h, e) ∈ dict_set d k v <-> ((h = k /\ e = v) \/ (h <> k /\ (h, e) ∈ d)).
Proof.
  unfold keys.
  induction d as [|[k' v'] d IH]; simpl; intros Hnd.
  - rewrite elem_of_cons, !elem_of_nil. split.
    + intros [[= -> ->]|[]]. by left.
    + intros [[-> ->]|[_ []]]. by left.
  - apply NoDup_cons in Hnd as [Hk' Hnd].
    destruct (String.eqb_spec k' k) as [->|Hne].
    + rewrite !elem_of_cons. split.
      * intros [H|H]; [left; split; congruence|].
        right. split; [|by right].
        intros ->. apply Hk'. change k with (fst (k, e)).
        by apply list_elem_of_fmap_2.
      * intros [[-> ->]|[Hhk [H|H]]]; [by left| congruence | by right].
    + rewrite !elem_of_cons, (IH Hnd). split.
      * intros [H|[H|H]]; [|tauto|tauto].
        inversion H; subst. right. split; [done|by left].
      * intros [H|[Hhk [H|H]]]; [tauto|by left|tauto].
Qed.

Lemma NoDup_keys_dict_set (d : dict) (k : string) (v : file_entry) :
  NoDup (keys d) -> NoDup (keys (dict_set d k v)).
Proof.
  induction d as [|[k' v'] d IH]; simpl; intros Hnd.
  - apply NoDup_singleton.
  - destruct (String.eqb_spec k' k) as [->|Hne]; [done|].
    change (NoDup (k' :: keys (dict_set d k v))).
    change (NoDup (k' :: keys d)) in Hnd.
    apply NoDup_cons in Hnd as [Hk' Hnd].
    apply NoDup_cons. split; [|by apply IH].
    rewrite keys_dict_set. tauto.
Qed.

Lemma NoDup_keys_store_all (l : list file_entry) (d : dict) :
  NoDup (keys d) -> NoDup (keys (store_all d l)).
Proof.
  unfold store_all. revert d. induction l as [|e l IH]; intros d Hnd; simpl.
  - done.
  - by apply IH, NoDup_keys_dict_set.
Qed.

Lemma store_all_snoc (d : dict) (l : list file_entry) (x : file_entry) :
  store_all d (l ++ [x]) = dict_set (store_all d l) (md5 x) x.
Proof. unfold store_all. by rewrite fold_left_app. Qed.

(** Of the entries of a sequence that share a hash, the partition keeps the
    last one. *)
Lemma elem_of_store_all_latest (l : list file_entry) (h : string) (e : file_entry) :
  (h, e) ∈ store_all [] l <-> latest h l = Some e.
Proof.
  unfold latest.
  induction l as [|x l IH] using rev_ind.
  - simpl. rewrite elem_of_nil. split; [tauto | discriminate].
  - rewrite store_all_snoc, elem_of_dict_set
      by (apply NoDup_keys_store_all; apply NoDup_nil_2).
    rewrite filter_app, IH.
    destruct (decide (md5 x = h)) as [Hx|Hx].
    + rewrite filter_cons_True, filter_nil, last_snoc by done.
      split; [intros [[_ ->]|[Hne _]]; congruence | intros [= ->]; by left].
    + rewrite filter_cons_False, filter_nil, app_nil_r by done.
      split; [intros [[Heq _]|[_ H]]; congruence | intros H; right; split; congruence].
Qed.

Lemma well_keyed_store_all (l : list file_entry) : well_keyed (store_all [] l) l.
Proof.
  split; [apply NoDup_keys_store_all, NoDup_nil_2|].
  intros k v H. apply elem_of_store_all_latest in H. unfold latest in H.
  apply last_Some_elem_of, list_elem_of_filter in H. by destruct H.
Qed.

(** ** More on has_relative_path *)

Lemma scan_Some (p : string) (l : list file_entry) (f : file_entry) :
  scan p l = Some f -> f ∈ l /\ relative_path f = p.
Proof.
  unfold scan. induction l as [|x l IH]; simpl; [discriminate|].
  destruct (String.eqb_spec (relative_path x) p) as [Hx|Hx].
  - intros [= ->]. split; [by left | done].
  - intros H. destruct (IH H). split; [by right | done].
Qed.

Lemma scan_None (p : string) (l : list file_entry) :
  scan p l = None <-> forall f, f ∈ l -> relative_path f <> p.
Proof.
  unfold scan. induction l as [|x l IH]; simpl.
  - split; [intros _ f Hf; by apply elem_of_nil in Hf | done].
  - destruct (String.eqb_spec (relative_path x) p) as [Hx|Hx].
    + split; [discriminate|]. intros H. exfalso. apply (H x); [by left | done].
    + rewrite IH. split.
      * intros H f Hf. apply elem_of_cons in Hf as [->|Hf]; [done | by apply H].
      * intros H f Hf. apply H. by right.
Qed.

(** X1: has_relative_path raises FVSUnsupportedKey exactly for a scope outside
    any, added, modified and intact, and does so before any partition is
    looked at; removed and count, although keys of the files dict, are such
    scopes. *)
Theorem has_relative_path_unsupported_key (st : FVSState) (p key : string) :
  has_relative_path st p key = Raise (FVSUnsupportedKey supported_keys)
  <-> key ∉ supported_keys.
Proof.
  split.
  - intros Hraise Hkey.
    unfold supported_keys in Hkey. rewrite !elem_of_cons, elem_of_nil in Hkey.
    destruct (has_relative_path_scoped st p) as (Ha & Hm & Hi).
    destruct Hkey as [->|[->|[->|[->|[]]]]]; [|congruence|congruence|congruence].
    rewrite has_relative_path_any in Hraise.
    destruct (scan p _); discriminate.
  - intros Hkey. unfold has_relative_path.
    by rewrite (bool_decide_eq_false_2 _ Hkey).
Qed.

(** X2: with the scope added, modified or intact the lookup reads that one
    partition only and always returns: an entry it returns belongs to the
    partition and has the path, and it returns None exactly when no entry of
    the partition has the path. *)
Theorem has_relative_path_scoped_spec (st : FVSState) (p key : string) :
  key ∈ ["added"; "modified"; "intact"] ->
  exists l,
    files_values (st_files st) key = Ret l
    /\ (exists r, has_relative_path st p key = Ret r)
    /\ (forall f, has_relative_path st p key = Ret (Some f) ->
          f ∈ l /\ relative_path f = p)
    /\ (has_relative_path st p key = Ret None <->
          forall f, f ∈ l -> relative_path f <> p).
Proof.
  intros Hkey. rewrite !elem_of_cons, elem_of_nil in Hkey.
  destruct (has_relative_path_scoped st p) as (Ha & Hm & Hi).
  destruct Hkey as [->|[->|[->|[]]]]; eexists; (split; [reflexivity|]).
  - rewrite Ha. split; [eauto|]. split.
    + intros f [= H]. by apply scan_Some.
    + rewrite <- scan_None. split; congruence.
  - rewrite Hm. split; [eauto|]. split.
    + intros f [= H]. by apply scan_Some.
    + rewrite <- scan_None. split; congruence.
  - rewrite Hi. split; [eauto|]. split.
    + intros f [= H]. by apply scan_Some.
    + rewrite <- scan_None. split; congruence.
Qed.

(** ** The header of the state through the loops of commit *)

Lemma keeps_header_ret {A} (a : A) : keeps_header (mret a).
Proof. intros m r m' H. by inversion H. Qed.

Lemma keeps_header_bind {A B} (c : M A) (k : A -> M B) :
  keeps_header c -> (forall a, keeps_header (k a)) -> keeps_header (c ≫= k).
Proof.
  intros Hc Hk m r m' H. rewrite bind_run in H.
  destruct (c m) as [[a|e] m1] eqn:E.
  - destruct (Hc _ _ _ E) as (H1 & H2). destruct (Hk a _ _ _ H) as (H3 & H4).
    split; congruence.
  - inversion H; subst. apply (Hc _ _ _ E).
Qed.

Lemma keeps_header_lift {A} (r : result A) : keeps_header (lift r).
Proof. intros m r' m' H. by inversion H. Qed.

Lemma keeps_header_modify_files (g : files -> files) :
  (forall f, count (g f) = count f) -> keeps_header (modify_files g).
Proof.
  intros Hg m r m' H. inversion H; subst; simpl. by rewrite Hg.
Qed.

Lemma keeps_header_for_each {A B} (l : list A) (body : B -> A -> M B) :
  (forall acc x, keeps_header (body acc x)) ->
  forall acc, keeps_header (for_each l body acc).
Proof.
  intros Hbody. induction l as [|x l IH]; intros acc; simpl.
  - apply keeps_header_ret.
  - apply keeps_header_bind; [apply Hbody | apply IH].
Qed.

Lemma keeps_header_commit_added acc x : keeps_header (commit_added acc x).
Proof.
  unfold commit_added.
  apply keeps_header_bind; [apply keeps_header_lift | intros f].
  apply keeps_header_bind; [apply keeps_header_lift | intros v].
  apply keeps_header_bind; [apply keeps_header_lift | intros k].
  apply keeps_header_bind;
    [by apply keeps_header_modify_files | intros _; apply keeps_header_ret].
Qed.

Lemma keeps_header_commit_modified acc x : keeps_header (commit_modified acc x).
Proof.
  unfold commit_modified.
  apply keeps_header_bind; [apply keeps_header_lift | intros f].
  apply keeps_header_bind; [apply keeps_header_lift | intros v].
  apply keeps_header_bind; [apply keeps_header_lift | intros k].
  apply keeps_header_bind;
    [by apply keeps_header_modify_files | intros _; apply keeps_header_ret].
Qed.

Lemma keeps_header_commit_removed acc x : keeps_header (commit_removed acc x).
Proof.
  unfold commit_removed.
  apply keeps_header_bind; [apply keeps_header_lift | intros v].
  apply keeps_header_bind; [apply keeps_header_lift | intros k].
  apply keeps_header_bind;
    [by apply keeps_header_modify_files | intros _; apply keeps_header_ret].
Qed.

Lemma keeps_header_commit_intact acc x : keeps_header (commit_intact acc x).
Proof.
  unfold commit_intact.
  apply keeps_header_bind; [apply keeps_header_lift | intros v].
  apply keeps_header_bind; [apply keeps_header_lift | intros k].
  apply keeps_header_bind;
    [by apply keeps_header_modify_files | intros _; apply keeps_header_ret].
Qed.

Lemma keeps_header_for_key (d : gmap string pyval) (key : string)
    (body : FVSData -> item -> M FVSData) (acc : FVSData) :
  (forall acc x, keeps_header (body acc x)) -> keeps_header (for_key d key body acc).
Proof.
  intros Hbody. unfold for_key.
  apply keeps_header_bind; [apply keeps_header_lift | intros v].
  apply keeps_header_bind; [apply keeps_header_lift | intros items].
  by apply keeps_header_for_each.
Qed.

Lemma keeps_header_collect_files (d : gmap string pyval) :
  keeps_header (collect_files d).
Proof.
  unfold collect_files.
  apply keeps_header_bind;
    [apply keeps_header_for_key, keeps_header_commit_added | intros a1].
  apply keeps_header_bind;
    [apply keeps_header_for_key, keeps_header_commit_modified | intros a2].
  apply keeps_header_bind;
    [apply keeps_header_for_key, keeps_header_commit_removed | intros a3].
  apply keeps_header_for_key, keeps_header_commit_intact.
Qed.

(** ** What a commit that returned went through *)

Lemma commit_ret_inv (caller : string) (message : pyval) (d : gmap string pyval)
    (m : machine) (u : unit) (m' : machine) :
  commit caller message d m = (Ret u, m') ->
  caller = "FVSRepo"
  /\ path_exists (env m) (state_dir (next_state_id repo)) = false
  /\ py_in message [PyNone; PyStr ""] = false
  /\ py_in (PyBool false)
       [dict_get d "count"; dict_get d "added"; dict_get d "modified";
        dict_get d "removed"; dict_get d "intact"] = false
  /\ exists c ops m1,
       d !! "count" = Some c
       /\ collect_files d (with_files (set_count c) (with_next_id m)) = (Ret ops, m1)
       /\ m' = Machine (self m1)
                 (persisted (next_state_id repo) ops (st_files (self m1)) (env m)).
Proof.
  intros Hrun. rewrite commit_run in Hrun.
  destruct (String.eqb_spec caller "FVSRepo") as [->|Hc]; [|discriminate].
  simpl negb in Hrun. lazy iota in Hrun.
  destruct (path_exists (env m) (state_dir (next_state_id repo))); [discriminate|].
  destruct (py_in message [PyNone; PyStr ""]); [discriminate|].
  destruct (py_in (PyBool false) _); [discriminate|].
  destruct (d !! "count") as [c|]; [|discriminate].
  destruct (collect_files d (with_files (set_count c) (with_next_id m)))
    as [[ops|e1] m1] eqn:E; [|discriminate].
  destruct (quiet_collect_files _ _ _ _ E) as (Henv & Hid & _).
  rewrite (finish_run _ _ (next_state_id repo)) in Hrun by (by rewrite Hid).
  inversion Hrun; subst. rewrite Henv.
  repeat (split; [reflexivity|]). by exists c, ops, m1.
Qed.

(** ** The checks of commit and break_references *)




(** X4: commit makes its checks in a fixed order, and a failed check hides the
    later ones: a taken slot is reported whatever the message and the diff,
    and an empty or missing message is reported whatever the diff.  Neither
    failure changes the state or the outside. *)
Theorem commit_check_order (message : pyval) (d : gmap string pyval) (m : machine) :
  (path_exists (env m) (state_dir (next_state_id repo)) = true ->
   commit "FVSRepo" message d m = (Raise FVSCommittingToExistingState, m))
  /\ (path_exists (env m) (state_dir (next_state_id repo)) = false ->
      message = PyNone \/ message = PyStr "" ->
      commit "FVSRepo" message d m = (Raise FVSEmptyCommitMessage, m)).
Proof.
  rewrite commit_run.
  change (negb (String.eqb "FVSRepo" "FVSRepo")) with false. lazy iota.
  split.
  - by intros ->.
  - intros -> [->| ->]; reflexivity.
Qed.

(** X5: after a commit that succeeded, a further commit on the same
    repository slot raises FVSCommittingToExistingState, whatever its message
    and diff, and changes nothing. *)
Theorem commit_twice_rejected (caller : string) (message : pyval)
    (d : gmap string pyval) (m : machine) (u : unit) (m' : machine)
    (message2 : pyval) (d2 : gmap string pyval) :
  commit caller message d m = (Ret u, m') ->
  commit "FVSRepo" message2 d2 m' = (Raise FVSCommittingToExistingState, m').
Proof.
  intros Hrun.
  destruct (commit_ret_inv _ _ _ _ _ _ Hrun)
    as (_ & _ & _ & _ & c & ops & m1 & _ & _ & ->).
  rewrite commit_run.
  change (negb (String.eqb "FVSRepo" "FVSRepo")) with false. lazy iota.
  assert (Hex : path_exists
            (env (Machine (self m1)
                    (persisted (next_state_id repo) ops (st_files (self m1)) (env m))))
            (state_dir (next_state_id repo)) = true).
  { unfold path_exists, persisted; simpl. apply bool_decide_eq_true_2.
    destruct (decide (files_yml (next_state_id repo) = state_dir (next_state_id repo)))
      as [Heq|Hne].
    - rewrite Heq, lookup_insert_eq. eauto.
    - rewrite lookup_insert_ne, lookup_insert_eq by done. eauto. }
  by rewrite Hex.
Qed.

(** X6: a commit that succeeds has taken the repository's next state id, has
    copied the count of the diff as it is, without counting the entries, and
    has left state_path as it was: commit never assigns it. *)
Theorem commit_header (caller : string) (message : pyval) (d : gmap string pyval)
    (m : machine) (u : unit) (m' : machine) :
  commit caller message d m = (Ret u, m') ->
  st_state_id (self m') = Some (next_state_id repo)
  /\ d !! "count" = Some (count (st_files (self m')))
  /\ st_state_path (self m') = st_state_path (self m).
Proof.
  intros Hrun.
  destruct (commit_ret_inv _ _ _ _ _ _ Hrun)
    as (_ & _ & _ & _ & c & ops & m1 & Hc & E & ->).
  destruct (quiet_collect_files _ _ _ _ E) as (_ & Hid & _).
  destruct (keeps_header_collect_files _ _ _ _ E) as (Hcount & Hpath).
  simpl in *. rewrite Hid, Hcount, Hpath. done.
Qed.

(** X7: a commit that got past its checks and then failed on the shape of the
    diff has written nothing outside, but the state object has already taken
    the next state id. *)
Theorem commit_late_failure_keeps_id (caller : string) (message : pyval)
    (d : gmap string pyval) (m : machine) (e : exn) (m' : machine) :
  commit caller message d m = (Raise e, m') ->
  shape_error e ->
  env m' = env m /\ st_state_id (self m') = Some (next_state_id repo).
Proof.
  intros Hrun Hs. destruct (shape_error_not_check _ Hs) as [Hn1 Hn2].
  rewrite commit_run in Hrun.
  assert (Hn3 : e <> FVSCallerWrongClass "FVSRepo")
    by (destruct Hs as [->|[k ->]]; discriminate).
  assert (Hn4 : e <> FVSCommittingToExistingState)
    by (destruct Hs as [->|[k ->]]; discriminate).
  destruct (negb (String.eqb caller "FVSRepo")); [inversion Hrun; congruence|].
  destruct (path_exists (env m) (state_dir (next_state_id repo)));
    [inversion Hrun; congruence|].
  destruct (py_in message [PyNone; PyStr ""]); [inversion Hrun; congruence|].
  destruct (py_in (PyBool false) _); [inversion Hrun; congruence|].
  destruct (d !! "count") as [c|].
  - destruct (collect_files d (with_files (set_count c) (with_next_id m)))
      as [[ops|e1] m1] eqn:E.
    + destruct (quiet_collect_files _ _ _ _ E) as (_ & Hid & _).
      rewrite (finish_run _ _ (next_state_id repo)) in Hrun by (by rewrite Hid).
      discriminate.
    + inversion Hrun; subst.
      destruct (quiet_collect_files _ _ _ _ E) as (Henv & Hid & _).
      by rewrite Henv, Hid.
  - inversion Hrun; subst. done.
Qed.



(** ** More on load *)

Lemma load_present (i : Z) (w : world) :
  path_exists w (state_dir i) = true ->
  load i w =
  match fs w !! files_yml i with
  | Some (File content) =>
      match yaml_safe_load content with
      | Some f => Ret (MkState f (Some i) (Some (state_dir i)))
      | None => Raise YAMLError
      end
  | Some Dir => Raise IsADirectoryError
  | None => Raise FileNotFoundError
  end.
Proof.
  intros Hdir. unfold load, FVSState_init, load_state.
  rewrite bind_run. unfold modify_self at 1. lazy beta iota.
  rewrite bind_run. unfold get_env at 1.
  lazy beta iota delta [env self st_files st_state_id st_state_path].
  fold (state_dir i). fold (files_yml i). rewrite Hdir.
  change (negb true) with false. lazy iota.
  rewrite bind_run. unfold read_yaml. rewrite bind_run. unfold get_env at 1.
  lazy beta iota delta [env].
  destruct (fs w !! files_yml i) as [[|content]|]; [done| |done].
  lazy beta iota. destruct (yaml_safe_load content); reflexivity.
Qed.

(** X10: load raises FVSStateNotFound exactly when the directory of the state
    does not exist; a directory without a readable files.yml gives another
    error. *)
Theorem load_not_found_iff (i : Z) (w : world) :
  load i w = Raise (FVSStateNotFound i) <-> path_exists w (state_dir i) = false.
Proof.
  split; [|apply load_absent].
  destruct (path_exists w (state_dir i)) eqn:Hdir; [|done].
  rewrite (load_present _ _ Hdir).
  destruct (fs w !! files_yml i) as [[|content]|]; [discriminate| |discriminate].
  destruct (yaml_safe_load content); discriminate.
Qed.

(** X11: a state that load returns carries the requested id, the path of its
    directory under states_path, and as files exactly what files.yml decodes
    to; nothing in it is checked. *)
Theorem load_ret_inv (i : Z) (w : world) (st : FVSState) :
  load i w = Ret st ->
  st_state_id st = Some i
  /\ st_state_path st = Some (os_path_join (states_path repo) (str_of_int i))
  /\ exists content,
       fs w !! os_path_join (os_path_join (states_path repo) (str_of_int i)) "files.yml"
         = Some (File content)
       /\ yaml_safe_load content = Some (st_files st).
Proof.
  intros Hload.
  destruct (path_exists w (state_dir i)) eqn:Hdir;
    [|rewrite (load_absent _ _ Hdir) in Hload; discriminate].
  rewrite (load_present _ _ Hdir) in Hload.
  fold (state_dir i). fold (files_yml i).
  destruct (fs w !! files_yml i) as [[|content]|]; [discriminate| |discriminate].
  destruct (yaml_safe_load content) as [f|] eqn:Hf; [|discriminate].
  inversion Hload; subst; simpl. eauto.
Qed.

(** ** What commit registers and stores *)

(** X12: a commit of four sequences of entries completes one transaction that
    holds one add for every entry of added and then one for every entry of
    modified, entries with a repeated hash included, and nothing for removed
    or intact. *)
Theorem commit_registers_adds (message : pyval) (d : gmap string pyval)
    (m : machine) (c : pyval) (la lm lr li : list file_entry) :
  path_exists (env m) (state_dir (next_state_id repo)) = false ->
  py_in message [PyNone; PyStr ""] = false ->
  d !! "count" = Some c -> py_eq c (PyBool false) = false ->
  d !! "added" = Some (PyList la) -> d !! "modified" = Some (PyList lm) ->
  d !! "removed" = Some (PyList lr) -> d !! "intact" = Some (PyList li) ->
  exists m' content,
    commit "FVSRepo" message d m = (Ret tt, m')
    /\ trace (env m') =
       (trace (env m) ++
          [Transaction (map (fun e => Add (file_of_entry e)) (la ++ lm));
           MakeDirs (state_dir (next_state_id repo));
           WriteFile (files_yml (next_state_id repo)) content])%list.
Proof.
  intros Hnew Hmsg Hc Hc0 Ha Hm Hr Hi.
  eexists _, _. split; [by apply (commit_lists _ _ _ c la lm lr li)|].
  simpl. unfold adds. by rewrite map_app.
Qed.

(** X13: after a commit of four sequences of entries on a freshly constructed
    state, every partition holds each hash once, every entry under its own
    hash, and only entries of the sequence of the same name. *)
Theorem commit_partitions_well_keyed (message : pyval) (d : gmap string pyval)
    (w : world) (c : pyval) (la lm lr li : list file_entry) :
  path_exists w (state_dir (next_state_id repo)) = false ->
  py_in message [PyNone; PyStr ""] = false ->
  d !! "count" = Some c -> py_eq c (PyBool false) = false ->
  d !! "added" = Some (PyList la) -> d !! "modified" = Some (PyList lm) ->
  d !! "removed" = Some (PyList lr) -> d !! "intact" = Some (PyList li) ->
  exists m',
    commit "FVSRepo" message d (Machine fresh w) = (Ret tt, m')
    /\ well_keyed (added (st_files (self m'))) la
    /\ well_keyed (modified (st_files (self m'))) lm
    /\ well_keyed (removed (st_files (self m'))) lr
    /\ well_keyed (intact (st_files (self m'))) li.
Proof.
  intros Hnew Hmsg Hc Hc0 Ha Hm Hr Hi.
  eexists. split; [by apply (commit_lists _ _ _ c la lm lr li)|].
  simpl. auto using well_keyed_store_all.
Qed.

(** X14: when several entries of one sequence carry the same hash, the
    partition of the committed state keeps the last of them: an entry is
    stored under a hash exactly when it is the last entry of the sequence
    with that hash. *)
Theorem commit_last_write_wins (message : pyval) (d : gmap string pyval)
    (w : world) (c : pyval) (la lm lr li : list file_entry) :
  path_exists w (state_dir (next_state_id repo)) = false ->
  py_in message [PyNone; PyStr ""] = false ->
  d !! "count" = Some c -> py_eq c (PyBool false) = false ->
  d !! "added" = Some (PyList la) -> d !! "modified" = Some (PyList lm) ->
  d !! "removed" = Some (PyList lr) -> d !! "intact" = Some (PyList li) ->
  exists m',
    commit "FVSRepo" message d (Machine fresh w) = (Ret tt, m')
    /\ forall h e,
         ((h, e) ∈ added (st_files (self m')) <-> latest h la = Some e)
         /\ ((h, e) ∈ modified (st_files (self m')) <-> latest h lm = Some e)
         /\ ((h, e) ∈ removed (st_files (self m')) <-> latest h lr = Some e)
         /\ ((h, e) ∈ intact (st_files (self m')) <-> latest h li = Some e).
Proof.
  intros Hnew Hmsg Hc Hc0 Ha Hm Hr Hi.
  eexists. split; [by apply (commit_lists _ _ _ c la lm lr li)|].
  intros h e. simpl. auto using elem_of_store_all_latest.
Qed.

(** X15: after a commit of four sequences of entries on a freshly constructed
    state, has_file answers true exactly for the hashes of the added, modified
    and intact sequences of the diff. *)
Theorem commit_has_file (message : pyval) (d : gmap string pyval)
    (w : world) (c : pyval) (la lm lr li : list file_entry) :
  path_exists w (state_dir (next_state_id repo)) = false ->
  py_in message [PyNone; PyStr ""] = false ->
  d !! "count" = Some c -> py_eq c (PyBool false) = false ->
  d !! "added" = Some (PyList la) -> d !! "modified" = Some (PyList lm) ->
  d !! "removed" = Some (PyList lr) -> d !! "intact" = Some (PyList li) ->
  exists m',
    commit "FVSRepo" message d (Machine fresh w) = (Ret tt, m')
    /\ forall h,
         has_file (self m') h = true
         <-> (h ∈ map md5 la \/ h ∈ map md5 lm \/ h ∈ map md5 li).
Proof.
  intros Hnew Hmsg Hc Hc0 Ha Hm Hr Hi.
  eexists. split; [by apply (commit_lists _ _ _ c la lm lr li)|].
  intros h. unfold has_file; simpl.
  rewrite <- !keys_store_all_empty, <- !dict_mem_keys.
  destruct (dict_mem h (store_all [] la)), (dict_mem h (store_all [] lm)),
           (dict_mem h (store_all [] li)); simpl; intuition congruence.
Qed.

Lemma well_keyed_value_key (d : dict) (l : list file_entry) (f : file_entry) :
  well_keyed d l -> f ∈ values d -> dict_mem (md5 f) d = true.
Proof.
  intros [_ Hk] Hf. apply dict_mem_keys.
  unfold values in Hf. apply list_elem_of_fmap in Hf as ([k v] & -> & Hkv).
  destruct (Hk _ _ Hkv) as [-> _]. unfold keys.
  apply (list_elem_of_fmap_2 fst d (md5 v, v) Hkv).
Qed.

(** An entry that a lookup by path returns is one that has_file reports, on
    every state whose added, modified and intact entries sit under their own
    hashes. *)
Lemma found_by_path_has_file (st : FVSState) (la lm li : list file_entry)
    (p key : string) (f : file_entry) :
  well_keyed (added (st_files st)) la ->
  well_keyed (modified (st_files st)) lm ->
  well_keyed (intact (st_files st)) li ->
  has_relative_path st p key = Ret (Some f) ->
  has_file st (md5 f) = true.
Proof.
  intros Wa Wm Wi Hfound. unfold has_file.
  assert (Hin : f ∈ values (added (st_files st)) \/ f ∈ values (modified (st_files st))
                \/ f ∈ values (intact (st_files st))).
  { destruct (decide (key ∈ supported_keys)) as [Hkey|Hkey];
      [|unfold has_relative_path in Hfound;
        rewrite (bool_decide_eq_false_2 _ Hkey) in Hfound; discriminate].
    unfold supported_keys in Hkey. rewrite !elem_of_cons, elem_of_nil in Hkey.
    destruct (has_relative_path_scoped st p) as (Ha & Hm & Hi).
    destruct Hkey as [->|[->|[->|[->|[]]]]].
    - rewrite has_relative_path_any in Hfound.
      destruct (scan p _) as [f'|] eqn:Hscan; [|discriminate].
      inversion Hfound; subst. apply scan_Some in Hscan as [Hscan _].
      rewrite !elem_of_app in Hscan. tauto.
    - rewrite Ha in Hfound. inversion Hfound as [Hscan].
      apply scan_Some in Hscan as [Hscan _]. tauto.
    - rewrite Hm in Hfound. inversion Hfound as [Hscan].
      apply scan_Some in Hscan as [Hscan _]. tauto.
    - rewrite Hi in Hfound. inversion Hfound as [Hscan].
      apply scan_Some in Hscan as [Hscan _]. tauto. }
  destruct Hin as [H|[H|H]].
  - by rewrite (well_keyed_value_key _ _ _ Wa H).
  - rewrite (well_keyed_value_key _ _ _ Wm H). by rewrite orb_true_r.
  - rewrite (well_keyed_value_key _ _ _ Wi H). by rewrite !orb_true_r.
Qed.

(** X16: on the state of a commit of four sequences of entries on a freshly
    constructed state, whatever has_relative_path returns for a path, under
    any scope, is an entry whose hash has_file reports. *)
Theorem commit_path_found_has_file (message : pyval) (d : gmap string pyval)
    (w : world) (c : pyval) (la lm lr li : list file_entry) :
  path_exists w (state_dir (next_state_id repo)) = false ->
  py_in message [PyNone; PyStr ""] = false ->
  d !! "count" = Some c -> py_eq c (PyBool false) = false ->
  d !! "added" = Some (PyList la) -> d !! "modified" = Some (PyList lm) ->
  d !! "removed" = Some (PyList lr) -> d !! "intact" = Some (PyList li) ->
  exists m',
    commit "FVSRepo" message d (Machine fresh w) = (Ret tt, m')
    /\ forall p key f,
         has_relative_path (self m') p key = Ret (Some f) ->
         has_file (self m') (md5 f) = true.
Proof.
  intros Hnew Hmsg Hc Hc0 Ha Hm Hr Hi.
  eexists. split; [by apply (commit_lists _ _ _ c la lm lr li)|].
  intros p key f. apply (found_by_path_has_file _ la lm li); simpl;
    apply well_keyed_store_all.
Qed.

(** ** commit, then break_references *)






(** X18: a diff whose added key is present but holds None, a boolean or an
    integer gets past the diff check when none of its values equals False, and
    then fails with TypeError at the first loop: nothing is written outside,
    no partition is touched, but the state object has taken the next id and
    the count of the diff. *)
Theorem commit_non_iterable_sequence (message : pyval) (d : gmap string pyval)
    (m : machine) (c v : pyval) :
  path_exists (env m) (state_dir (next_state_id repo)) = false ->
  py_in message [PyNone; PyStr ""] = false ->
  py_in (PyBool false)
    [dict_get d "count"; dict_get d "added"; dict_get d "modified";
     dict_get d "removed"; dict_get d "intact"] = false ->
  d !! "count" = Some c -> d !! "added" = Some v ->
  v = PyNone \/ (exists b, v = PyBool b) \/ (exists n, v = PyInt n) ->
  exists m',
    commit "FVSRepo" message d m = (Raise TypeError, m')
    /\ env m' = env m
    /\ st_state_id (self m') = Some (next_state_id repo)
    /\ st_files (self m') = set_count c (st_files (self m)).
Proof.
  intros Hnew Hmsg Hcheck Hc Ha Hv.
  eexists. rewrite commit_run.
  change (negb (String.eqb "FVSRepo" "FVSRepo")) with false. lazy iota.
  rewrite Hnew, Hmsg, Hcheck, Hc.
  unfold collect_files. rewrite bind_run. unfold for_key at 1.
  rewrite bind_run. unfold lift at 1, dict_getitem. rewrite Ha. lazy beta iota.
  rewrite bind_run. unfold lift at 1.
  assert (Hiter : py_iter v = Raise TypeError)
    by (destruct Hv as [->|[[b ->]|[n ->]]]; reflexivity).
  rewrite Hiter. lazy beta iota. done.
Qed.

(** ** Further compositions *)

(** X19: where the codec reads back what it wrote, loading the id taken by any
    commit that succeeded, whatever the diff it accepted, returns the files of
    the committed state object, together with the id and the directory path
    that commit itself never assigned. *)
Theorem commit_load_any (caller : string) (message : pyval) (d : gmap string pyval)
    (m : machine) (u : unit) (m' : machine) :
  (forall f, yaml_safe_load (yaml_dump f) = Some f) ->
  commit caller message d m = (Ret u, m') ->
  load (next_state_id repo) (env m') =
  Ret (MkState (st_files (self m')) (Some (next_state_id repo))
               (Some (os_path_join (states_path repo)
                                   (str_of_int (next_state_id repo))))).
Proof.
  intros Hcodec Hrun.
  destruct (commit_ret_inv _ _ _ _ _ _ Hrun)
    as (_ & _ & _ & _ & c & ops & m1 & _ & _ & ->).
  fold (state_dir (next_state_id repo)).
  eapply load_run; [| |apply Hcodec]; unfold persisted; simpl.
  - destruct (decide (files_yml (next_state_id repo) = state_dir (next_state_id repo)))
      as [Heq|Hne].
    + rewrite Heq, lookup_insert_eq. eauto.
    + rewrite lookup_insert_ne, lookup_insert_eq by done. eauto.
  - by rewrite lookup_insert_eq.
Qed.

(** X20: commit does not empty the partitions of the state object it runs on:
    on a state that already holds entries, for instance a loaded one, every
    partition afterwards has its old hashes and those of the sequence of the
    diff. *)
Theorem commit_keeps_old_entries (message : pyval) (d : gmap string pyval)
    (m : machine) (c : pyval) (la lm lr li : list file_entry) :
  path_exists (env m) (state_dir (next_state_id repo)) = false ->
  py_in message [PyNone; PyStr ""] = false ->
  d !! "count" = Some c -> py_eq c (PyBool false) = false ->
  d !! "added" = Some (PyList la) -> d !! "modified" = Some (PyList lm) ->
  d !! "removed" = Some (PyList lr) -> d !! "intact" = Some (PyList li) ->
  exists m',
    commit "FVSRepo" message d m = (Ret tt, m')
    /\ forall h,
         (h ∈ keys (added (st_files (self m')))
          <-> (h ∈ keys (added (st_files (self m))) \/ h ∈ map md5 la))
         /\ (h ∈ keys (modified (st_files (self m')))
             <-> (h ∈ keys (modified (st_files (self m))) \/ h ∈ map md5 lm))
         /\ (h ∈ keys (removed (st_files (self m')))
             <-> (h ∈ keys (removed (st_files (self m))) \/ h ∈ map md5 lr))
         /\ (h ∈ keys (intact (st_files (self m')))
             <-> (h ∈ keys (intact (st_files (self m))) \/ h ∈ map md5 li)).
Proof.
  intros Hnew Hmsg Hc Hc0 Ha Hm Hr Hi.
  eexists. split; [by apply (commit_lists _ _ _ c la lm lr li)|].
  intros h. simpl. auto using keys_store_all.
Qed.

Lemma dict_set_fresh (d : dict) (k : string) (v : file_entry) :
  k ∉ keys d -> dict_set d k v = (d ++ [(k, v)])%list.
Proof.
  unfold keys. induction d as [|[k' v'] d IH]; simpl; intros Hk; [done|].
  apply not_elem_of_cons in Hk as [Hne Hk].
  destruct (String.eqb_spec k' k) as [->|_]; [done|].
  by rewrite IH.
Qed.

Lemma store_all_distinct (l : list file_entry) (d : dict) :
  NoDup (keys d ++ map md5 l) ->
  store_all d l = (d ++ map (fun e => (md5 e, e)) l)%list.
Proof.
  revert d. induction l as [|e l IH]; intros d Hnd.
  - by rewrite app_nil_r.
  - change (store_all d (e :: l)) with (store_all (dict_set d (md5 e) e) l).
    assert (Hfresh : md5 e ∉ keys d).
    { apply NoDup_app in Hnd as (_ & Hdis & _). intros Hin.
      apply (Hdis _ Hin). by left. }
    rewrite (dict_set_fresh _ _ _ Hfresh), IH.
    + simpl. by rewrite <- app_assoc.
    + unfold keys. rewrite map_app. simpl. rewrite <- app_assoc. exact Hnd.
Qed.

Lemma values_store_all_distinct (l : list file_entry) :
  NoDup (map md5 l) -> values (store_all [] l) = l.
Proof.
  intros Hnd. rewrite store_all_distinct by done. simpl.
  unfold values. rewrite map_map. simpl. apply map_id.
Qed.

(** X21: when the hashes of a sequence of the diff are pairwise different, the
    partition keeps the entries in the order of the sequence, so that after a
    commit on a freshly constructed state a lookup by path under the scope
    added, modified or intact returns the first entry of that sequence with
    the path, or None when there is none. *)
Theorem commit_lookup_in_sequence_order (message : pyval) (d : gmap string pyval)
    (w : world) (c : pyval) (la lm lr li : list file_entry) :
  path_exists w (state_dir (next_state_id repo)) = false ->
  py_in message [PyNone; PyStr ""] = false ->
  d !! "count" = Some c -> py_eq c (PyBool false) = false ->
  d !! "added" = Some (PyList la) -> d !! "modified" = Some (PyList lm) ->
  d !! "removed" = Some (PyList lr) -> d !! "intact" = Some (PyList li) ->
  NoDup (map md5 la) -> NoDup (map md5 lm) -> NoDup (map md5 li) ->
  exists m',
    commit "FVSRepo" message d (Machine fresh w) = (Ret tt, m')
    /\ forall p,
         has_relative_path (self m') p "added" = Ret (scan p la)
         /\ has_relative_path (self m') p "modified" = Ret (scan p lm)
         /\ has_relative_path (self m') p "intact" = Ret (scan p li).
Proof.
  intros Hnew Hmsg Hc Hc0 Ha Hm Hr Hi Na Nm Ni.
  eexists. split; [by apply (commit_lists _ _ _ c la lm lr li)|].
  intros p.
  destruct (has_relative_path_scoped
              (MkState (committed_files (st_files fresh) c la lm lr li)
                       (Some (next_state_id repo)) (st_state_path fresh)) p)
    as (Hpa & Hpm & Hpi).
  simpl in *.
  rewrite (values_store_all_distinct _ Na) in Hpa.
  rewrite (values_store_all_distinct _ Nm) in Hpm.
  rewrite (values_store_all_distinct _ Ni) in Hpi.
  done.
Qed.

End Engine.

(** ** The statements at concrete inputs *)

(** The committed state of one added file [A] next to one intact file [B]:
    both hashes are there, and [/a] resolves to [A]. *)
Example commit_one_added_state :
  self (snd (commit plain_dump repo_one "FVSRepo" (PyStr "first") diff_one_added
               (Machine fresh empty_world)))
  = MkState (Files (PyInt 2) [("hashA", entry_a)] [] [] [("hashB", entry_b)])
            (Some 1) None
  /\ has_file (MkState (Files (PyInt 2) [("hashA", entry_a)] [] [] [("hashB", entry_b)])
                       (Some 1) None) "hashA" = true
  /\ has_file (MkState (Files (PyInt 2) [("hashA", entry_a)] [] [] [("hashB", entry_b)])
                       (Some 1) None) "hashB" = true
  /\ has_relative_path
       (MkState (Files (PyInt 2) [("hashA", entry_a)] [] [] [("hashB", entry_b)])
                (Some 1) None) "/a" "any" = Ret (Some entry_a).
Proof. vm_compute. repeat split. Qed.

(** A diff without its intact key gets past the diff check and dies on the
    missing key, after the added and modified entries were queued and before
    anything was completed or written. *)
Example commit_missing_intact_key :
  fst (commit plain_dump repo_one "FVSRepo" (PyStr "first") diff_no_intact
         (Machine fresh empty_world)) = Raise (KeyError "intact")
  /\ env (snd (commit plain_dump repo_one "FVSRepo" (PyStr "first") diff_no_intact
                 (Machine fresh empty_world))) = @empty_world files.
Proof. vm_compute. repeat split. Qed.

(** C1: the commit of one added file next to one intact file, with nothing
    modified or removed, supplies two empty sequences and still succeeds. *)
Lemma commit_accepts_empty_sequences :
  py_truthy (dict_get diff_one_added "modified") = false
  /\ py_truthy (dict_get diff_one_added "removed") = false
  /\ fst (commit plain_dump repo_one "FVSRepo" (PyStr "first") diff_one_added
            (Machine fresh empty_world)) = Ret tt.
Proof. vm_compute. repeat split. Qed.

(** A count of 0 next to four populated sequences. *)
Lemma commit_wrong_unstaged_dict_iff_witness :
  fst (commit plain_dump repo_one "FVSRepo" (PyStr "first") diff_zero_count
         (Machine fresh empty_world)) = Raise FVSWrongUnstagedDict
  <-> (equals_False (PyInt 0) \/ equals_False (PyList [entry_a])
       \/ equals_False (PyList [entry_c]) \/ equals_False (PyList [entry_d])
       \/ equals_False (PyList [entry_b])).
Proof.
  apply (commit_wrong_unstaged_dict_iff plain_dump repo_one (PyStr "first")
           diff_zero_count (Machine fresh empty_world));
    vm_compute; reflexivity.
Defined.

(** A commit with the message [None] on an empty repository. *)
Lemma commit_failure_no_persisted_effect_witness :
  env (Machine fresh (@empty_world files)) = env (Machine fresh empty_world)
  /\ load plain_load repo_one (next_state_id repo_one)
          (env (Machine fresh empty_world))
     = Raise (FVSStateNotFound (next_state_id repo_one))
  /\ (FVSEmptyCommitMessage = FVSEmptyCommitMessage
      \/ FVSEmptyCommitMessage = FVSWrongUnstagedDict ->
      Machine fresh (@empty_world files) = Machine fresh empty_world).
Proof.
  apply (commit_failure_no_persisted_effect plain_dump plain_load repo_one
           "FVSRepo" PyNone diff_full (Machine fresh empty_world)
           FVSEmptyCommitMessage (Machine fresh empty_world)).
  - vm_compute; reflexivity.
  - left; reflexivity.
Defined.

(** The first commit of a repository, every sequence populated. *)
Lemma commit_load_roundtrip_witness :
  exists m' st,
    commit plain_dump repo_one "FVSRepo" (PyStr "first") diff_full
      (Machine fresh empty_world) = (Ret tt, m')
    /\ st_state_id (self m') = Some (next_state_id repo_one)
    /\ load plain_load repo_one (next_state_id repo_one) (env m') = Ret st
    /\ st_files st = st_files (self m')
    /\ st_files st =
       committed_files (st_files (self (Machine fresh (@empty_world files))))
         (PyInt 4) [entry_a] [entry_c] [entry_d] [entry_b].
Proof.
  apply (commit_load_roundtrip plain_dump plain_load repo_one (PyStr "first")
           diff_full (Machine fresh empty_world));
    first [intros f; reflexivity | vm_compute; reflexivity].
Defined.

(** C8: a new file with the content of an intact one puts the same hash into
    the added and into the intact partition of the committed state. *)
Lemma commit_shared_hash_overlap :
  fst (commit plain_dump repo_one "FVSRepo" (PyStr "copy") diff_shared_hash
         (Machine fresh empty_world)) = Ret tt
  /\ keys (added (st_files (self (snd
        (commit plain_dump repo_one "FVSRepo" (PyStr "copy") diff_shared_hash
           (Machine fresh empty_world)))))) = ["hashB"]
  /\ keys (intact (st_files (self (snd
        (commit plain_dump repo_one "FVSRepo" (PyStr "copy") diff_shared_hash
           (Machine fresh empty_world)))))) = ["hashB"].
Proof. vm_compute. repeat split. Qed.

(** Four sequences with four different hashes. *)
Lemma commit_partitions_disjoint_iff_witness :
  exists m',
    commit plain_dump repo_one "FVSRepo" (PyStr "first") diff_full
      (Machine fresh empty_world) = (Ret tt, m')
    /\ (partitions_disjoint (st_files (self m'))
        <-> sequences_disjoint [entry_a] [entry_c] [entry_d] [entry_b]).
Proof.
  apply (commit_partitions_disjoint_iff plain_dump repo_one (PyStr "first")
           diff_full empty_world (PyInt 4));
    vm_compute; reflexivity.
Defined.

(** The effects of the first commit of a repository. *)
Lemma commit_content_before_metadata_witness :
  exists ops,
    trace (env (snd (commit plain_dump repo_one "FVSRepo" (PyStr "first") diff_full
                       (Machine fresh empty_world)))) =
      (trace (env (Machine fresh (@empty_world files))) ++
         [Transaction ops;
          MakeDirs (state_dir repo_one (next_state_id repo_one));
          WriteFile (files_yml repo_one (next_state_id repo_one))
            (plain_dump (st_files (self (snd
               (commit plain_dump repo_one "FVSRepo" (PyStr "first") diff_full
                  (Machine fresh empty_world))))))])%list
    /\ fs (env (snd (commit plain_dump repo_one "FVSRepo" (PyStr "first") diff_full
                       (Machine fresh empty_world)))) =
        <[files_yml repo_one (next_state_id repo_one) :=
            File (plain_dump (st_files (self (snd
              (commit plain_dump repo_one "FVSRepo" (PyStr "first") diff_full
                 (Machine fresh empty_world))))))]>
          (<[state_dir repo_one (next_state_id repo_one) := Dir]>
             (fs (env (Machine fresh (@empty_world files))))).
Proof.
  apply (commit_content_before_metadata plain_dump repo_one "FVSRepo"
           (PyStr "first") diff_full (Machine fresh empty_world) tt).
  vm_compute; reflexivity.
Defined.

(** Four populated sequences reported with a count of 0. *)
Lemma commit_zero_count_rejected_witness :
  commit plain_dump repo_one "FVSRepo" (PyStr "first") diff_zero_count
    (Machine fresh empty_world)
  = (Raise FVSWrongUnstagedDict, Machine fresh empty_world).
Proof.
  apply (commit_zero_count_rejected plain_dump repo_one (PyStr "first")
           diff_zero_count (Machine fresh empty_world));
    vm_compute; reflexivity.
Defined.

(** A freshly constructed state asked for any path under the scope any. *)
Lemma has_relative_path_any_not_found_raises_witness :
  has_relative_path fresh "/a" "any" = Raise (KeyError "any").
Proof.
  apply (has_relative_path_any_not_found_raises fresh "/a"). reflexivity.
Defined.

(** The intact entry at [/a] wins over the added entry at [/a]. *)
Lemma has_relative_path_any_order_witness :
  has_relative_path state_same_path "/a" "any" = Ret (Some entry_a_old).
Proof.
  apply (proj2 (proj2 (has_relative_path_any_order state_same_path "/a"))).
  reflexivity.
Defined.

(** ** Further statements at concrete inputs *)

(** The removed partition is no scope of the lookup. *)
Lemma has_relative_path_unsupported_key_witness :
  has_relative_path state_same_path "/a" "removed"
  = Raise (FVSUnsupportedKey supported_keys).
Proof.
  apply (proj2 (has_relative_path_unsupported_key state_same_path "/a" "removed")).
  apply (bool_decide_unpack _). vm_compute. exact I.
Defined.

(** The added scope on a state that holds [/a] as intact and as added. *)
Lemma has_relative_path_scoped_spec_witness :
  exists l,
    files_values (st_files state_same_path) "added" = Ret l
    /\ (exists r, has_relative_path state_same_path "/a" "added" = Ret r)
    /\ (forall f, has_relative_path state_same_path "/a" "added" = Ret (Some f) ->
          f ∈ l /\ relative_path f = "/a")
    /\ (has_relative_path state_same_path "/a" "added" = Ret None <->
          forall f, f ∈ l -> relative_path f <> "/a").
Proof.
  apply (has_relative_path_scoped_spec state_same_path "/a" "added").
  apply (bool_decide_unpack _). vm_compute. exact I.
Defined.


(** An empty message next to a diff that lacks a key: the message is what is
    reported. *)
Lemma commit_check_order_witness :
  commit plain_dump repo_one "FVSRepo" (PyStr "") diff_no_intact
    (Machine fresh empty_world)
  = (Raise FVSEmptyCommitMessage, Machine fresh empty_world).
Proof.
  apply (proj2 (commit_check_order plain_dump repo_one (PyStr "") diff_no_intact
                  (Machine fresh empty_world))).
  - vm_compute; reflexivity.
  - right; reflexivity.
Defined.

(** The first commit of a repository, repeated. *)
Lemma commit_twice_rejected_witness :
  commit plain_dump repo_one "FVSRepo" (PyStr "second") diff_one_added
    (snd (commit plain_dump repo_one "FVSRepo" (PyStr "first") diff_full
            (Machine fresh empty_world)))
  = (Raise FVSCommittingToExistingState,
     snd (commit plain_dump repo_one "FVSRepo" (PyStr "first") diff_full
            (Machine fresh empty_world))).
Proof.
  apply (commit_twice_rejected plain_dump repo_one "FVSRepo" (PyStr "first")
           diff_full (Machine fresh empty_world) tt).
  vm_compute; reflexivity.
Defined.

(** The header of the state after the first commit of a repository. *)
Lemma commit_header_witness :
  st_state_id (self (snd (commit plain_dump repo_one "FVSRepo" (PyStr "first")
                            diff_full (Machine fresh empty_world))))
  = Some (next_state_id repo_one)
  /\ diff_full !! "count"
     = Some (count (st_files (self (snd
         (commit plain_dump repo_one "FVSRepo" (PyStr "first") diff_full
            (Machine fresh empty_world))))))
  /\ st_state_path (self (snd (commit plain_dump repo_one "FVSRepo" (PyStr "first")
                                 diff_full (Machine fresh empty_world))))
     = st_state_path (self (Machine fresh (@empty_world files))).
Proof.
  apply (commit_header plain_dump repo_one "FVSRepo" (PyStr "first") diff_full
           (Machine fresh empty_world) tt).
  vm_compute; reflexivity.
Defined.

(** A diff without its intact key. *)
Lemma commit_late_failure_keeps_id_witness :
  env (snd (commit plain_dump repo_one "FVSRepo" (PyStr "first") diff_no_intact
              (Machine fresh empty_world)))
  = env (Machine fresh empty_world)
  /\ st_state_id (self (snd (commit plain_dump repo_one "FVSRepo" (PyStr "first")
                               diff_no_intact (Machine fresh empty_world))))
     = Some (next_state_id repo_one).
Proof.
  apply (commit_late_failure_keeps_id plain_dump repo_one "FVSRepo" (PyStr "first")
           diff_no_intact (Machine fresh empty_world) (KeyError "intact")).
  - vm_compute; reflexivity.
  - right. exists "intact". reflexivity.
Defined.



(** Loading the id of a state that was never committed. *)
Lemma load_not_found_iff_witness :
  load plain_load repo_one 7 (@empty_world files) = Raise (FVSStateNotFound 7).
Proof.
  apply (proj2 (load_not_found_iff plain_load repo_one 7 empty_world)).
  vm_compute; reflexivity.
Defined.

(** Loading the state that the first commit of a repository wrote. *)
Lemma load_ret_inv_witness :
  st_state_id (MkState (committed_files empty_files (PyInt 4) [entry_a] [entry_c]
                          [entry_d] [entry_b])
                       (Some 1) (Some "/repo/.fvs/states/1")) = Some 1
  /\ st_state_path (MkState (committed_files empty_files (PyInt 4) [entry_a] [entry_c]
                               [entry_d] [entry_b])
                            (Some 1) (Some "/repo/.fvs/states/1"))
     = Some (os_path_join (states_path repo_one) (str_of_int 1))
  /\ exists content,
       fs (env (snd (commit plain_dump repo_one "FVSRepo" (PyStr "first") diff_full
                       (Machine fresh empty_world))))
         !! os_path_join (os_path_join (states_path repo_one) (str_of_int 1)) "files.yml"
         = Some (File content)
       /\ plain_load content
          = Some (st_files (MkState (committed_files empty_files (PyInt 4) [entry_a]
                                       [entry_c] [entry_d] [entry_b])
                                    (Some 1) (Some "/repo/.fvs/states/1"))).
Proof.
  apply (load_ret_inv plain_load repo_one 1
           (env (snd (commit plain_dump repo_one "FVSRepo" (PyStr "first") diff_full
                        (Machine fresh empty_world))))).
  vm_compute; reflexivity.
Defined.

(** Two added entries with one hash: two adds are registered. *)
Lemma commit_registers_adds_witness :
  exists m' content,
    commit plain_dump repo_one "FVSRepo" (PyStr "first") diff_repeated_hash
      (Machine fresh empty_world) = (Ret tt, m')
    /\ trace (env m') =
       (trace (env (Machine fresh (@empty_world files))) ++
          [Transaction (map (fun e => Add (file_of_entry e))
                          ([entry_a; entry_a_renamed] ++ [entry_c]));
           MakeDirs (state_dir repo_one (next_state_id repo_one));
           WriteFile (files_yml repo_one (next_state_id repo_one)) content])%list.
Proof.
  apply (commit_registers_adds plain_dump repo_one (PyStr "first")
           diff_repeated_hash (Machine fresh empty_world) (PyInt 5)
           [entry_a; entry_a_renamed] [entry_c] [entry_d] [entry_b]);
    vm_compute; reflexivity.
Defined.

(** Two added entries with one hash: the partition is still well keyed. *)
Lemma commit_partitions_well_keyed_witness :
  exists m',
    commit plain_dump repo_one "FVSRepo" (PyStr "first") diff_repeated_hash
      (Machine fresh empty_world) = (Ret tt, m')
    /\ well_keyed (added (st_files (self m'))) [entry_a; entry_a_renamed]
    /\ well_keyed (modified (st_files (self m'))) [entry_c]
    /\ well_keyed (removed (st_files (self m'))) [entry_d]
    /\ well_keyed (intact (st_files (self m'))) [entry_b].
Proof.
  apply (commit_partitions_well_keyed plain_dump repo_one (PyStr "first")
           diff_repeated_hash empty_world (PyInt 5));
    vm_compute; reflexivity.
Defined.

(** Two added entries with one hash: the second one is kept. *)
Lemma commit_last_write_wins_witness :
  exists m',
    commit plain_dump repo_one "FVSRepo" (PyStr "first") diff_repeated_hash
      (Machine fresh empty_world) = (Ret tt, m')
    /\ forall h e,
         ((h, e) ∈ added (st_files (self m'))
          <-> latest h [entry_a; entry_a_renamed] = Some e)
         /\ ((h, e) ∈ modified (st_files (self m')) <-> latest h [entry_c] = Some e)
         /\ ((h, e) ∈ removed (st_files (self m')) <-> latest h [entry_d] = Some e)
         /\ ((h, e) ∈ intact (st_files (self m')) <-> latest h [entry_b] = Some e).
Proof.
  apply (commit_last_write_wins plain_dump repo_one (PyStr "first")
           diff_repeated_hash empty_world (PyInt 5));
    vm_compute; reflexivity.
Defined.

(** has_file on the state of the first commit of a repository. *)
Lemma commit_has_file_witness :
  exists m',
    commit plain_dump repo_one "FVSRepo" (PyStr "first") diff_full
      (Machine fresh empty_world) = (Ret tt, m')
    /\ forall h,
         has_file (self m') h = true
         <-> (h ∈ map md5 [entry_a] \/ h ∈ map md5 [entry_c] \/ h ∈ map md5 [entry_b]).
Proof.
  apply (commit_has_file plain_dump repo_one (PyStr "first") diff_full
           empty_world (PyInt 4) [entry_a] [entry_c] [entry_d] [entry_b]);
    vm_compute; reflexivity.
Defined.

(** Lookups by path on the state of the first commit of a repository. *)
Lemma commit_path_found_has_file_witness :
  exists m',
    commit plain_dump repo_one "FVSRepo" (PyStr "first") diff_full
      (Machine fresh empty_world) = (Ret tt, m')
    /\ forall p key f,
         has_relative_path (self m') p key = Ret (Some f) ->
         has_file (self m') (md5 f) = true.
Proof.
  apply (commit_path_found_has_file plain_dump repo_one (PyStr "first") diff_full
           empty_world (PyInt 4) [entry_a] [entry_c] [entry_d] [entry_b]);
    vm_compute; reflexivity.
Defined.


(** A diff whose added key holds [None]. *)
Lemma commit_non_iterable_sequence_witness :
  exists m',
    commit plain_dump repo_one "FVSRepo" (PyStr "first") diff_none_added
      (Machine fresh empty_world) = (Raise TypeError, m')
    /\ env m' = env (Machine fresh (@empty_world files))
    /\ st_state_id (self m') = Some (next_state_id repo_one)
    /\ st_files (self m')
       = set_count (PyInt 3) (st_files (self (Machine fresh (@empty_world files)))).
Proof.
  apply (commit_non_iterable_sequence plain_dump repo_one (PyStr "first")
           diff_none_added (Machine fresh empty_world) (PyInt 3) PyNone);
    first [left; reflexivity | vm_compute; reflexivity].
Defined.

(** Loading the first commit of a repository. *)
Lemma commit_load_any_witness :
  load plain_load repo_one (next_state_id repo_one)
    (env (snd (commit plain_dump repo_one "FVSRepo" (PyStr "first") diff_one_added
                 (Machine fresh empty_world))))
  = Ret (MkState
           (st_files (self (snd (commit plain_dump repo_one "FVSRepo" (PyStr "first")
                                   diff_one_added (Machine fresh empty_world)))))
           (Some (next_state_id repo_one))
           (Some (os_path_join (states_path repo_one)
                               (str_of_int (next_state_id repo_one))))).
Proof.
  apply (commit_load_any plain_dump plain_load repo_one "FVSRepo" (PyStr "first")
           diff_one_added (Machine fresh empty_world) tt).
  - intros f; reflexivity.
  - vm_compute; reflexivity.
Defined.

(** A commit on a state object that already holds [/a] twice. *)
Lemma commit_keeps_old_entries_witness :
  exists m',
    commit plain_dump repo_one "FVSRepo" (PyStr "next") diff_full
      (Machine state_same_path empty_world) = (Ret tt, m')
    /\ forall h,
         (h ∈ keys (added (st_files (self m')))
          <-> (h ∈ keys (added (st_files state_same_path)) \/ h ∈ map md5 [entry_a]))
         /\ (h ∈ keys (modified (st_files (self m')))
             <-> (h ∈ keys (modified (st_files state_same_path))
                  \/ h ∈ map md5 [entry_c]))
         /\ (h ∈ keys (removed (st_files (self m')))
             <-> (h ∈ keys (removed (st_files state_same_path))
                  \/ h ∈ map md5 [entry_d]))
         /\ (h ∈ keys (intact (st_files (self m')))
             <-> (h ∈ keys (intact (st_files state_same_path))
                  \/ h ∈ map md5 [entry_b])).
Proof.
  apply (commit_keeps_old_entries plain_dump repo_one (PyStr "next") diff_full
           (Machine state_same_path empty_world) (PyInt 4)
           [entry_a] [entry_c] [entry_d] [entry_b]);
    vm_compute; reflexivity.
Defined.

(** Lookups in the order of the diff after the first commit of a repository. *)
Lemma commit_lookup_in_sequence_order_witness :
  exists m',
    commit plain_dump repo_one "FVSRepo" (PyStr "first") diff_full
      (Machine fresh empty_world) = (Ret tt, m')
    /\ forall p,
         has_relative_path (self m') p "added" = Ret (scan p [entry_a])
         /\ has_relative_path (self m') p "modified" = Ret (scan p [entry_c])
         /\ has_relative_path (self m') p "intact" = Ret (scan p [entry_b]).
Proof.
  apply (commit_lookup_in_sequence_order plain_dump repo_one (PyStr "first")
           diff_full empty_world (PyInt 4) [entry_a] [entry_c] [entry_d] [entry_b]);
    first [ vm_compute; reflexivity
          | apply NoDup_singleton ].
Defined.
